(** * Verification of [vertex_ai_reasoning_config.py]

    A shallow embedding of the read-merge-write update of the environment
    variables of a Vertex AI Reasoning Engine, and the properties of it.

    Conventions of the embedding.
    - Python exceptions are values of [exn]; a computation that may raise
      returns a [result].
    - JSON documents are values of [json].  A [JObj] is a Python [dict]:
      its items in insertion order; [JInt] covers the integers.  Floating
      point numbers are outside the model.
    - The dictionary [env_dict] of [_merge_env_vars] is a [pydict]: an
      association list in insertion order, where assigning to a key that is
      present keeps the position (and the key object) of the first insertion.
    - Subprocesses, the clock and the temporary file are answered by a world
      [W] that the program threads through; every subprocess started and
      every file written or removed is appended to a trace.
    - [json.loads] is a parameter of the program: any decoder from text to
      documents.
    - Console output ([log], [error], [print]) has no effect on control flow
      or on requests and is left out. *)

From Stdlib Require Import String Ascii List ZArith Bool Lia.
Import ListNotations.
Local Open Scope list_scope.
Local Open Scope string_scope.

Set Implicit Arguments.
Set Warnings "-register-all".

(** ** Exceptions and results *)

Inductive exn : Type :=
| CalledProcessError (returncode : Z) (stderr : string)
| JSONDecodeError
| FileNotFoundError
| AttributeError
| KeyError (key : string)
| TypeError
| ValueError
| SystemExit (code : Z).

Inductive result (A : Type) : Type :=
| Ok (a : A)
| Raise (e : exn).

Arguments Ok {A} a.
Arguments Raise {A} e.

Definition rbind {A B : Type} (r : result A) (k : A -> result B) : result B :=
  match r with
  | Ok a => k a
  | Raise e => Raise e
  end.

Declare Scope result_scope.
Delimit Scope result_scope with result.
Notation "'try!' x <- r ; k" := (rbind r (fun x => k))
  (at level 10, x name, r at level 100, k at level 200) : result_scope.

(** ** JSON values *)

Inductive json : Type :=
| JNull
| JBool (b : bool)
| JInt (z : Z)
| JStr (s : string)
| JArr (xs : list json)
| JObj (fields : list (string * json)).

(** [d.get(key)] of a [dict] with [str] keys. *)
Fixpoint obj_lookup (key : string) (fields : list (string * json)) : option json :=
  match fields with
  | [] => None
  | (k, v) :: rest => if String.eqb key k then Some v else obj_lookup key rest
  end.

(** [o.get(key, dflt)]: only a [dict] has the method. *)
Definition py_get (key : string) (dflt : json) (o : json) : result json :=
  match o with
  | JObj fields =>
      Ok (match obj_lookup key fields with Some v => v | None => dflt end)
  | _ => Raise AttributeError
  end.

(** [o[key]] with a [str] key: a missing key of a [dict] is a [KeyError],
    every other JSON value refuses a [str] subscript. *)
Definition py_getitem (key : string) (o : json) : result json :=
  match o with
  | JObj fields =>
      match obj_lookup key fields with
      | Some v => Ok v
      | None => Raise (KeyError key)
      end
  | _ => Raise TypeError
  end.

Fixpoint chars_of (s : string) : list json :=
  match s with
  | EmptyString => []
  | String c rest => JStr (String c EmptyString) :: chars_of rest
  end.

(** [for var in o]: a list yields its elements, a [dict] its keys, a [str]
    its characters; [None], [bool] and [int] are not iterable. *)
Definition py_iter (o : json) : result (list json) :=
  match o with
  | JArr xs => Ok xs
  | JObj fields => Ok (map (fun kv => JStr (fst kv)) fields)
  | JStr s => Ok (chars_of s)
  | _ => Raise TypeError
  end.

(** ** Hashable keys *)

Inductive pykey : Type :=
| KNone
| KBool (b : bool)
| KInt (z : Z)
| KStr (s : string).

(** [hash(o)]: lists and dicts are unhashable. *)
Definition key_of_json (o : json) : result pykey :=
  match o with
  | JNull => Ok KNone
  | JBool b => Ok (KBool b)
  | JInt z => Ok (KInt z)
  | JStr s => Ok (KStr s)
  | JArr _ | JObj _ => Raise TypeError
  end.

Definition json_of_key (k : pykey) : json :=
  match k with
  | KNone => JNull
  | KBool b => JBool b
  | KInt z => JInt z
  | KStr s => JStr s
  end.

Definition Z_of_bool (b : bool) : Z := if b then 1%Z else 0%Z.

(** Python's [==] on keys: [True == 1] and [False == 0]. *)
Definition key_eqb (a b : pykey) : bool :=
  match a, b with
  | KNone, KNone => true
  | KBool x, KBool y => Bool.eqb x y
  | KBool x, KInt z | KInt z, KBool x => Z.eqb (Z_of_bool x) z
  | KInt x, KInt y => Z.eqb x y
  | KStr x, KStr y => String.eqb x y
  | _, _ => false
  end.

(** ** Python dictionaries, in insertion order *)

Section PyDict.
Variables K V : Type.
Variable keq : K -> K -> bool.

Definition pydict : Type := list (K * V).

Fixpoint dict_get (k : K) (d : pydict) : option V :=
  match d with
  | [] => None
  | (k', v') :: rest => if keq k k' then Some v' else dict_get k rest
  end.

(** [d[k] = v] *)
Fixpoint dict_setitem (k : K) (v : V) (d : pydict) : pydict :=
  match d with
  | [] => [(k, v)]
  | (k', v') :: rest =>
      if keq k k' then (k', v) :: rest else (k', v') :: dict_setitem k v rest
  end.

(** [for k, v in kvs: d[k] = v] *)
Definition dict_update (kvs : list (K * V)) (d : pydict) : pydict :=
  fold_left (fun acc kv => dict_setitem (fst kv) (snd kv) acc) kvs d.

Definition key_in (k : K) (d : pydict) : bool :=
  existsb (fun kv => keq k (fst kv)) d.

(** No two items have equal keys. *)
Fixpoint dict_wf (d : pydict) : bool :=
  match d with
  | [] => true
  | (k, _) :: rest => negb (key_in k rest) && dict_wf rest
  end.

(** The binding that the last assignment to [k] in [kvs] leaves. *)
Definition last_binding (k : K) (kvs : list (K * V)) : option V :=
  dict_get k (rev kvs).
End PyDict.

(** ** The merge *)

Record EnvVar : Type := mkEnvVar { name : string; value : string }.

Definition env_dict_t : Type := pydict pykey json.

(** One step of [{var["name"]: var["value"] for var in current_env}]. *)
Definition comprehension_step (acc : result env_dict_t) (var : json)
  : result env_dict_t :=
  (try! d <- acc;
   try! n <- py_getitem "name" var;
   try! v <- py_getitem "value" var;
   try! k <- key_of_json n;
   Ok (dict_setitem key_eqb k v d))%result.

Definition dict_comprehension (current_env : list json) : result env_dict_t :=
  fold_left comprehension_step current_env (Ok []).

Definition overlay (new_vars : list EnvVar) (env_dict : env_dict_t) : env_dict_t :=
  fold_left
    (fun d new_var => dict_setitem key_eqb (KStr (name new_var)) (JStr (value new_var)) d)
    new_vars env_dict.

Definition entry (kv : pykey * json) : json :=
  JObj [("name", json_of_key (fst kv)); ("value", snd kv)].

(** [current_config.get("spec", {}).get("deploymentSpec", {}).get("env", [])] *)
Definition current_env_of (current_config : json) : result json :=
  (try! spec <- py_get "spec" (JObj []) current_config;
   try! deployment <- py_get "deploymentSpec" (JObj []) spec;
   py_get "env" (JArr []) deployment)%result.

Definition _merge_env_vars (current_config : json) (new_vars : list EnvVar)
  : result (list json) :=
  (try! current_env <- current_env_of current_config;
   try! vars <- py_iter current_env;
   try! env_dict <- dict_comprehension vars;
   let env_dict := overlay new_vars env_dict in
   Ok (map entry env_dict))%result.

(** ** Text *)

(** [needle in hay] *)
Fixpoint str_contains (needle hay : string) : bool :=
  prefix needle hay
  || match hay with
     | EmptyString => false
     | String _ rest => str_contains needle rest
     end.

(** The two halves of [s] around its first ['='], if it has one. *)
Fixpoint partition_eq (s : string) : option (string * string) :=
  match s with
  | EmptyString => None
  | String c rest =>
      if Ascii.eqb c "="%char then Some (EmptyString, rest)
      else match partition_eq rest with
           | Some (k, v) => Some (String c k, v)
           | None => None
           end
  end.

(** [s.split("=", 1)] *)
Definition split_eq_1 (s : string) : list string :=
  match partition_eq s with
  | Some (k, v) => [k; v]
  | None => [s]
  end.

(** ASCII white space, as [str.isspace] sees it. *)
Definition is_space (c : ascii) : bool :=
  let n := nat_of_ascii c in
  (((9 <=? n) && (n <=? 13)) || ((28 <=? n) && (n <=? 32)))%nat.

Fixpoint lstrip (s : string) : string :=
  match s with
  | EmptyString => EmptyString
  | String c rest => if is_space c then lstrip rest else s
  end.

Fixpoint rstrip (s : string) : string :=
  match s with
  | EmptyString => EmptyString
  | String c rest =>
      match rstrip rest with
      | EmptyString => if is_space c then EmptyString else String c EmptyString
      | kept => String c kept
      end
  end.

(** [s.strip()] *)
Definition str_strip (s : string) : string := rstrip (lstrip s).

(** *** [urllib.parse.urlencode] *)

Definition always_safe (c : ascii) : bool :=
  let n := nat_of_ascii c in
  (((65 <=? n) && (n <=? 90)) || ((97 <=? n) && (n <=? 122))
   || ((48 <=? n) && (n <=? 57))
   || (n =? 95) || (n =? 46) || (n =? 45) || (n =? 126))%nat.

Definition hex_digit (n : nat) : ascii :=
  nth n ["0"; "1"; "2"; "3"; "4"; "5"; "6"; "7"; "8"; "9";
         "A"; "B"; "C"; "D"; "E"; "F"]%char "0"%char.

(** [quote_plus]: a space becomes ['+'], every other byte outside the
    always-safe set becomes [%XX]. *)
Fixpoint quote_plus (s : string) : string :=
  match s with
  | EmptyString => EmptyString
  | String c rest =>
      if always_safe c then String c (quote_plus rest)
      else if Ascii.eqb c " "%char then String "+"%char (quote_plus rest)
      else
        let n := nat_of_ascii c in
        String "%"%char
          (String (hex_digit (n / 16)) (String (hex_digit (n mod 16)) (quote_plus rest)))
  end.

Definition urlencode (query : list (string * string)) : string :=
  String.concat "&" (map (fun kv => quote_plus (fst kv) ++ "=" ++ quote_plus (snd kv)) query).

(** ** Command line parsing of [KEY=VALUE] *)

(** The loop of [main] over [args.env_vars]; [env_vars] is the list built so
    far. *)
Fixpoint parse_env_vars (vars : list string) (env_vars : list EnvVar)
  : result (list EnvVar) :=
  match vars with
  | [] => Ok env_vars
  | var :: rest =>
      if negb (str_contains "=" var) then Raise (SystemExit 1)
      else
        match split_eq_1 var with
        | [key; value] => parse_env_vars rest (env_vars ++ [mkEnvVar key value])%list
        | _ => Raise ValueError
        end
  end.

(** ** The world and the state of a run *)

Record CompletedProcess : Type :=
  mkCompleted { returncode : Z; stdout : string; stderr : string }.

(** What [subprocess.run] meets: the program ran to completion, or the
    executable does not exist. *)
Inductive run_outcome : Type :=
| Completed (cp : CompletedProcess)
| NotFound.

Inductive event : Type :=
| Exec (argv : list string)
| TempWrite (path : string) (body : json)
| Unlink (path : string).

(** The argument after ["-X"] of a [curl] command line. *)
Fixpoint http_method (argv : list string) : option string :=
  match argv with
  | [] => None
  | a :: rest =>
      if String.eqb a "-X" then
        match rest with
        | m :: _ => Some m
        | [] => None
        end
      else http_method rest
  end.

Definition is_patch (ev : event) : bool :=
  match ev with
  | Exec ("curl" :: argv) =>
      match http_method argv with
      | Some m => String.eqb m "PATCH"
      | None => false
      end
  | _ => false
  end.

Definition is_exec (ev : event) : bool :=
  match ev with
  | Exec _ => true
  | _ => false
  end.

(** The fields of [VertexAIReasoningEngineConfig] that [__init__] fixes. *)
Record configurator : Type :=
  mkConfigurator {
    project_id : string;
    location : string;
    engine_id : string;
    verbose : bool
  }.

(** The command line after [parser.parse_args()]. *)
Record Namespace : Type :=
  mkNamespace {
    arg_project_id : string;
    arg_location : string;
    arg_engine_id : string;
    arg_env_vars : list string;
    arg_verbose : bool
  }.

Definition API_BASE : string := "aiplatform.googleapis.com".
Definition API_VERSION : string := "v1beta1".
Definition ENV_PATH : string := "spec.deploymentSpec.env".

Section Program.
Variable W : Type.
(** [subprocess.run(argv, ...)] *)
Variable subprocess_run : list string -> W -> run_outcome * W.
(** [int(time.time())] *)
Variable time_time : W -> Z * W.
(** The name of a fresh [NamedTemporaryFile]. *)
Variable mkstemp : W -> string * W.
(** [json.loads]; [None] stands for [JSONDecodeError]. *)
Variable json_loads : string -> option json.

(** The world, what was asked of it so far, and the two mutable fields of
    the configurator. *)
Record state : Type :=
  mkState {
    world : W;
    trace : list event;
    _access_token : option string;
    _token_refreshed_at : Z
  }.

Definition M (A : Type) : Type := state -> result A * state.

Definition ret {A : Type} (a : A) : M A := fun st => (Ok a, st).

Definition raise {A : Type} (e : exn) : M A := fun st => (Raise e, st).

Definition bind {A B : Type} (m : M A) (k : A -> M B) : M B :=
  fun st =>
    match m st with
    | (Ok a, st1) => k a st1
    | (Raise e, st1) => (Raise e, st1)
    end.

Definition lift {A : Type} (r : result A) : M A := fun st => (r, st).

(** The first [except] clause that matches [e] handles it; with none the
    exception goes on. *)
Fixpoint dispatch {A : Type} (clauses : list ((exn -> bool) * (exn -> M A)))
         (e : exn) : M A :=
  match clauses with
  | [] => raise e
  | (caught, handler) :: others =>
      if caught e then handler e else dispatch others e
  end.

(** [try: body  except C1 as e: h1 e  except C2 as e: h2 e ...] *)
Definition try_except {A : Type} (body : M A)
           (clauses : list ((exn -> bool) * (exn -> M A))) : M A :=
  fun st =>
    match body st with
    | (Raise e, st1) => dispatch clauses e st1
    | done => done
    end.

Definition emit (ev : event) : M unit :=
  fun st =>
    (Ok tt, mkState (world st) (trace st ++ [ev])%list
                    (_access_token st) (_token_refreshed_at st)).

(** [subprocess.run(argv, check=check)]: with [check] a non-zero return
    code is a [CalledProcessError]. *)
Definition run (check : bool) (argv : list string) : M CompletedProcess :=
  fun st =>
    let '(outcome, w) := subprocess_run argv (world st) in
    let st1 := mkState w (trace st ++ [Exec argv])%list
                       (_access_token st) (_token_refreshed_at st) in
    match outcome with
    | NotFound => (Raise FileNotFoundError, st1)
    | Completed cp =>
        if check && negb (returncode cp =? 0)%Z
        then (Raise (CalledProcessError (returncode cp) (stderr cp)), st1)
        else (Ok cp, st1)
    end.

Definition now : M Z :=
  fun st =>
    let '(t, w) := time_time (world st) in
    (Ok t, mkState w (trace st) (_access_token st) (_token_refreshed_at st)).

(** [with NamedTemporaryFile(mode='w', suffix='.json', delete=False) as f:
    json.dump(body, f); body_file = f.name] *)
Definition temp_write (body : json) : M string :=
  fun st =>
    let '(path, w) := mkstemp (world st) in
    (Ok path, mkState w (trace st ++ [TempWrite path body])%list
                      (_access_token st) (_token_refreshed_at st)).

Definition loads (text : string) : M json :=
  match json_loads text with
  | Some doc => ret doc
  | None => raise JSONDecodeError
  end.

Definition store_token (token : string) (at_time : Z) : M unit :=
  fun st => (Ok tt, mkState (world st) (trace st) (Some token) at_time).

Definition get_state : M state := fun st => (Ok st, st).
End Program.

Declare Scope prog_scope.
Delimit Scope prog_scope with prog.
Notation "'do!' x <- m ; k" := (bind m (fun x => k))
  (at level 10, x name, m at level 100, k at level 200) : prog_scope.

(** ** The configurator *)

Definition truthy (token : option string) : bool :=
  match token with
  | Some (String _ _) => true
  | _ => false
  end.

Definition token_text (token : option string) : string :=
  match token with
  | Some t => t
  | None => EmptyString
  end.

(** [except subprocess.CalledProcessError] *)
Definition is_CalledProcessError (e : exn) : bool :=
  match e with
  | CalledProcessError _ _ => true
  | _ => false
  end.

(** [except json.JSONDecodeError] *)
Definition is_JSONDecodeError (e : exn) : bool :=
  match e with
  | JSONDecodeError => true
  | _ => false
  end.

(** [except Exception]: [SystemExit] is not an [Exception]. *)
Definition is_Exception (e : exn) : bool :=
  match e with
  | SystemExit _ => false
  | _ => true
  end.

Section Configurator.
Variable W : Type.
Variable subprocess_run : list string -> W -> run_outcome * W.
Variable time_time : W -> Z * W.
Variable mkstemp : W -> string * W.
Variable json_loads : string -> option json.
Variable self : configurator.

Local Open Scope prog_scope.

Definition _get_access_token (force_refresh : bool) : M W string :=
  do! current_time <- now time_time;
  do! st <- @get_state W;
  if negb force_refresh && truthy (_access_token st)
     && (current_time - _token_refreshed_at st <? 3000)%Z
  then ret (token_text (_access_token st))
  else
    try_except
      (do! result <- run subprocess_run true ["gcloud"; "auth"; "print-access-token"];
       do! _ <- store_token (str_strip (stdout result)) current_time;
       ret (str_strip (stdout result)))
      [(is_CalledProcessError, fun e => raise e)].

Definition _build_url (query_params : option (list (string * string))) : string :=
  let base_url :=
    "https://" ++ location self ++ "-" ++ API_BASE ++ "/"
    ++ API_VERSION ++ "/"
    ++ "projects/" ++ project_id self ++ "/"
    ++ "locations/" ++ location self ++ "/"
    ++ "reasoningEngines/" ++ engine_id self in
  match query_params with
  | Some ((_ :: _) as q) => base_url ++ "?" ++ urlencode q
  | _ => base_url
  end.

Definition get_argv (token url : string) : list string :=
  ["curl"; "-s"; "-X"; "GET";
   "-H"; "Authorization: Bearer " ++ token;
   "-H"; "Content-Type: application/json";
   url].

Definition get_current_config : M W json :=
  let url := _build_url None in
  do! token <- _get_access_token false;
  try_except
    (do! result <- run subprocess_run true (get_argv token url);
     loads json_loads (stdout result))
    [(is_CalledProcessError, fun e => raise e);
     (is_JSONDecodeError, fun e => raise e)].

Definition patch_body_of (merged_env : list json) : json :=
  JObj [("spec", JObj [("deploymentSpec", JObj [("env", JArr merged_env)])])].

Definition patch_argv (token body_file url : string) : list string :=
  ["curl"; "-s"; "-X"; "PATCH";
   "-H"; "Authorization: Bearer " ++ token;
   "-H"; "Content-Type: application/json";
   "-d"; "@" ++ body_file;
   url].

Definition update_env_vars (new_vars : list EnvVar) : M W json :=
  do! current_config <- get_current_config;
  do! merged_env <- lift (_merge_env_vars current_config new_vars);
  let patch_body := patch_body_of merged_env in
  let url := _build_url (Some [("updateMask", ENV_PATH)]) in
  do! token <- _get_access_token false;
  try_except
    (do! body_file <- temp_write mkstemp patch_body;
     do! result <- run subprocess_run true (patch_argv token body_file url);
     do! response <- loads json_loads (stdout result);
     do! _ <- emit (Unlink body_file);
     ret response)
    [(is_CalledProcessError, fun e => raise e);
     (is_JSONDecodeError, fun e => raise e)].

Definition validate_prerequisites : M W (bool * list string) :=
  let errors := [] in
  do! result <- run subprocess_run false ["which"; "gcloud"];
  let errors :=
    if negb (returncode result =? 0)%Z
    then (errors ++ ["gcloud CLI not found in PATH"])%list else errors in
  do! result <- run subprocess_run false ["which"; "curl"];
  let errors :=
    if negb (returncode result =? 0)%Z
    then (errors ++ ["curl not found in PATH"])%list else errors in
  do! result <- run subprocess_run false ["gcloud"; "auth"; "list"];
  let errors :=
    if negb (str_contains "ACTIVE" (stdout result))
    then (errors ++ ["No active gcloud authentication"])%list else errors in
  do! result <- run subprocess_run false ["gcloud"; "projects"; "describe"; project_id self];
  let errors :=
    if negb (returncode result =? 0)%Z
    then (errors ++ [("Cannot access project " ++ project_id self)%string])%list
    else errors in
  do! result <- run subprocess_run false
       ["gcloud"; "ai"; "reasoning-engines"; "list";
        "--project=" ++ project_id self;
        "--location=" ++ location self;
        "--format=value(id)"];
  let errors :=
    if negb (str_contains (engine_id self) (stdout result))
    then (errors ++ [("Reasoning Engine " ++ engine_id self ++ " not found in "
                      ++ location self ++ ". " ++ "Available: "
                      ++ str_strip (stdout result))%string])%list
    else errors in
  ret (Nat.eqb (List.length errors) 0, errors).
End Configurator.

(** ** [main] *)

Section Main.
Variable W : Type.
Variable subprocess_run : list string -> W -> run_outcome * W.
Variable time_time : W -> Z * W.
Variable mkstemp : W -> string * W.
Variable json_loads : string -> option json.

Local Open Scope prog_scope.

Definition sys_exit {A : Type} (code : Z) : M W A := raise (SystemExit code).

(** [main] from the point where [parser.parse_args()] has returned [args];
    the parser and its own exits (usage errors, [--help]) come before and
    are not part of it. *)
Definition main (args : Namespace) : M W unit :=
  do! env_vars <- lift (parse_env_vars (arg_env_vars args) []);
  let configurator :=
    mkConfigurator (arg_project_id args) (arg_location args)
                   (arg_engine_id args) (arg_verbose args) in
  do! checked <- validate_prerequisites subprocess_run configurator;
  let '(valid, errors) := checked in
  if negb valid then sys_exit 1
  else
    try_except
      (do! result <- update_env_vars subprocess_run time_time mkstemp json_loads
                                     configurator env_vars;
       sys_exit 0)
      [(is_Exception, fun e => sys_exit 1)].

(** The state in which [__init__] leaves a new configurator. *)
Definition initial (w : W) : state W := mkState w [] None 0.

(** The exit status of the interpreter: the code of [sys.exit], 1 for an
    exception that nothing caught, 0 at the end of the script. *)
Definition exit_status {A : Type} (r : result A) : Z :=
  match r with
  | Ok _ => 0
  | Raise (SystemExit code) => code
  | Raise _ => 1
  end.

(** One run of the script from the world [w]: the exit status and the
    requests it made. *)
Definition run_main (args : Namespace) (w : W) : Z * list event :=
  let '(r, st) := main args (initial w) in
  (exit_status r, trace st).
End Main.

(** ** Requests made by a computation *)

(** Between [st] and [st1] exactly the requests [evs] were made. *)
Definition made {W : Type} (st st1 : state W) (evs : list event) : Prop :=
  trace st1 = (trace st ++ evs)%list.

Definition no_patch (evs : list event) : Prop :=
  forall ev, In ev evs -> is_patch ev = false.

(** ** Environment lists as the data model has them *)

(** An entry of the remote env list: [{"name": ..., "value": ...}]. *)
Definition env_json (e : EnvVar) : json :=
  JObj [("name", JStr (name e)); ("value", JStr (value e))].

Definition env_item (e : EnvVar) : pykey * json :=
  (KStr (name e), JStr (value e)).

(** A document whose env list is [E]. *)
Definition config_with_env (E : list EnvVar) : json :=
  JObj [("spec", JObj [("deploymentSpec", JObj [("env", JArr (map env_json E))])])].

(** The value that the last entry of [N] named [n] carries. *)
Definition last_value (n : string) (N : list EnvVar) : option string :=
  option_map value (find (fun e => String.eqb (name e) n) (rev N)).

(** A key of the path [spec.deploymentSpec.env] is absent from the document
    (the objects above it being there). *)
Definition path_missing (current_config : json) : Prop :=
  exists top,
    current_config = JObj top /\
    (obj_lookup "spec" top = None \/
     exists spec,
       obj_lookup "spec" top = Some (JObj spec) /\
       (obj_lookup "deploymentSpec" spec = None \/
        exists deployment,
          obj_lookup "deploymentSpec" spec = Some (JObj deployment) /\
          obj_lookup "env" deployment = None)).

(** The field [key] of a document, when the document is an object that has
    it. *)
Definition field (key : string) (o : json) : option json :=
  match o with
  | JObj fields => obj_lookup key fields
  | _ => None
  end.

(** What stands at [spec.deploymentSpec.env], if the path leads anywhere. *)
Definition env_list_at (current_config : json) : option json :=
  match field "spec" current_config with
  | Some spec =>
      match field "deploymentSpec" spec with
      | Some deployment => field "env" deployment
      | None => None
      end
  | None => None
  end.

(** The document has nothing at [spec.deploymentSpec.env]: a key of the
    path is absent, or what stands above it is not an object. *)
Definition env_path_absent (current_config : json) : Prop :=
  env_list_at current_config = None.

(** ** [curl] *)

Module Curl.
(** What happens on the wire: no HTTP response at all (name resolution,
    connection, TLS or timeout failure), or a response with a status. *)
Inductive exchange : Type :=
| NoResponse (exit_code : positive)
| Response (status : Z) (body : string).

Definition fail_on_error (argv : list string) : bool :=
  existsb (fun a => String.eqb a "-f" || String.eqb a "--fail") argv.

(** The exit status and output of [curl -s ...]: without [--fail] every
    HTTP response, whatever its status, is written to standard output and
    the exit status is 0; with it a status of 400 or more gives exit
    status 22.  Without a response the exit status is not 0. *)
Definition completed (argv : list string) (x : exchange) : CompletedProcess :=
  match x with
  | NoResponse code => mkCompleted (Zpos code) EmptyString EmptyString
  | Response status body =>
      if fail_on_error argv && (400 <=? status)%Z
      then mkCompleted 22 EmptyString EmptyString
      else mkCompleted 0 body EmptyString
  end.

Definition http_failure (x : exchange) : bool :=
  match x with
  | NoResponse _ => false
  | Response status _ => (400 <=? status)%Z
  end.
End Curl.

(** ** Scripted worlds, for running the program on examples *)

Inductive reply : Type :=
| Tool (outcome : run_outcome)
| Wire (x : Curl.exchange).

(** Each subprocess consumes the next reply of the script; a reply from the
    wire is what [curl] makes of it with the arguments it was given. *)
Definition scripted_run (argv : list string) (w : list reply)
  : run_outcome * list reply :=
  match w with
  | [] => (NotFound, [])
  | Tool outcome :: rest => (outcome, rest)
  | Wire x :: rest => (Completed (Curl.completed argv x), rest)
  end.

Definition fixed_time (w : list reply) : Z * list reply := (1700000000%Z, w).

Definition fixed_temp (w : list reply) : string * list reply :=
  ("/tmp/tmpk3v9.json", w).

Definition dq : string := String (ascii_of_nat 34) EmptyString.

Definition quoted (s : string) : string := dq ++ s ++ dq.

Definition body_unavailable : string :=
  "{" ++ quoted "error" ++ ": {" ++ quoted "code" ++ ": 503, "
  ++ quoted "status" ++ ": " ++ quoted "UNAVAILABLE" ++ "}}".

Definition doc_unavailable : json :=
  JObj [("error", JObj [("code", JInt 503); ("status", JStr "UNAVAILABLE")])].

Definition body_denied : string :=
  "{" ++ quoted "error" ++ ": {" ++ quoted "code" ++ ": 403, "
  ++ quoted "status" ++ ": " ++ quoted "PERMISSION_DENIED" ++ "}}".

Definition doc_denied : json :=
  JObj [("error", JObj [("code", JInt 403); ("status", JStr "PERMISSION_DENIED")])].

Definition body_info : string :=
  "{" ++ quoted "spec" ++ ": {" ++ quoted "deploymentSpec" ++ ": {"
  ++ quoted "env" ++ ": [{" ++ quoted "name" ++ ": " ++ quoted "LOG_LEVEL"
  ++ ", " ++ quoted "value" ++ ": " ++ quoted "info" ++ "}]}}}".

Definition body_debug : string :=
  "{" ++ quoted "spec" ++ ": {" ++ quoted "deploymentSpec" ++ ": {"
  ++ quoted "env" ++ ": [{" ++ quoted "name" ++ ": " ++ quoted "LOG_LEVEL"
  ++ ", " ++ quoted "value" ++ ": " ++ quoted "debug" ++ "}]}}}".

(** The decoder on the bodies of the examples; every other text is taken
    as undecodable. *)
Definition example_loads (text : string) : option json :=
  if String.eqb text "{}" then Some (JObj [])
  else if String.eqb text body_unavailable then Some doc_unavailable
  else if String.eqb text body_denied then Some doc_denied
  else if String.eqb text body_info
       then Some (config_with_env [mkEnvVar "LOG_LEVEL" "info"])
  else if String.eqb text body_debug
       then Some (config_with_env [mkEnvVar "LOG_LEVEL" "debug"])
  else None.

Definition example_engine : configurator :=
  mkConfigurator "acme-prod" "us-central1" "4242" false.

Definition token_reply : reply :=
  Tool (Completed (mkCompleted 0 "ya29.token
" EmptyString)).

(** Example env lists. *)
Definition twice_log_level : list EnvVar :=
  [mkEnvVar "LOG_LEVEL" "info"; mkEnvVar "LOG_LEVEL" "debug"].

Definition trace_enabled : list EnvVar := [mkEnvVar "TRACE_ENABLED" "true"].

Definition log_info : list EnvVar := [mkEnvVar "LOG_LEVEL" "info"].

Definition log_debug_and_trace : list EnvVar :=
  [mkEnvVar "LOG_LEVEL" "debug"; mkEnvVar "TRACE_ENABLED" "true"].


(** Worlds of the examples: the token command answers, then the wire. *)

(** The GET finds no server. *)
Definition unreachable_world : list reply :=
  [token_reply; Wire (Curl.NoResponse 7)].

(** The GET returns the configuration, the PATCH the updated one. *)
Definition healthy_world : list reply :=
  [token_reply; Wire (Curl.Response 200 body_info);
   Wire (Curl.Response 200 body_debug)].

(** The GET is answered by HTTP 503 with an error body; the PATCH goes
    through. *)
Definition unavailable_world : list reply :=
  [token_reply; Wire (Curl.Response 503 body_unavailable);
   Wire (Curl.Response 200 "{}")].

(** The GET returns the configuration, the PATCH is refused by HTTP 403. *)
Definition denied_world : list reply :=
  [token_reply; Wire (Curl.Response 200 body_info);
   Wire (Curl.Response 403 body_denied)].

(** ** Notions used to state further properties *)

(** An entry that the dict comprehension accepts: an object with a
    hashable ["name"] and a ["value"]. *)
Definition entry_ok (var : json) : bool :=
  match py_getitem "name" var, py_getitem "value" var with
  | Ok n, Ok _ =>
      match key_of_json n with
      | Ok _ => true
      | Raise _ => false
      end
  | _, _ => false
  end.

(** The names of a list in the order of their first appearance. *)
Definition first_names (names : list string) : list string :=
  fold_left
    (fun seen n => if existsb (String.eqb n) seen then seen else (seen ++ [n])%list)
    names [].

(** [KEY=VALUE], as the command line spells a variable. *)
Definition render (e : EnvVar) : string := name e ++ "=" ++ value e.

Definition is_curl (ev : event) : bool :=
  match ev with
  | Exec ("curl" :: _) => true
  | _ => false
  end.

Definition is_unlink (ev : event) : bool :=
  match ev with
  | Unlink _ => true
  | _ => false
  end.

(** The commands of [validate_prerequisites], in the order it runs them. *)
Definition prerequisite_commands (self : configurator) : list event :=
  [Exec ["which"; "gcloud"];
   Exec ["which"; "curl"];
   Exec ["gcloud"; "auth"; "list"];
   Exec ["gcloud"; "projects"; "describe"; project_id self];
   Exec ["gcloud"; "ai"; "reasoning-engines"; "list";
         "--project=" ++ project_id self;
         "--location=" ++ location self;
         "--format=value(id)"]].

(** The characters that [quote_plus] can produce. *)
Definition quoted_char (c : ascii) : bool :=
  always_safe c || Ascii.eqb c "+"%char || Ascii.eqb c "%"%char.

(** How often the character [c] occurs in [s]. *)
Fixpoint count_char (c : ascii) (s : string) : nat :=
  match s with
  | EmptyString => 0
  | String a rest => (if Ascii.eqb a c then 1 else 0) + count_char c rest
  end.

Definition gcloud_token_argv : list string :=
  ["gcloud"; "auth"; "print-access-token"].

Definition is_ok {A : Type} (r : result A) : bool :=
  match r with
  | Ok _ => true
  | Raise _ => false
  end.

(** What a call of [_get_access_token] may start. *)
Definition token_events (evs : list event) : Prop :=
  evs = [] \/ evs = [Exec gcloud_token_argv].

(** The requests of one [update_env_vars], in order, cut short where it
    fails: the token command if the cache does not serve, the GET, the token
    command again if need be, the body file, the PATCH, and on success the
    removal of the body file. *)
Definition update_shape (self : configurator) (evs : list event) (ok : bool)
  : Prop :=
  exists T1,
    token_events T1 /\
    ((ok = false /\ evs = T1) \/
     exists token1,
       (ok = false /\
        evs = (T1 ++ [Exec (get_argv token1 (_build_url self None))])%list) \/
       exists T2,
         token_events T2 /\
         ((ok = false /\
           evs = (T1 ++ [Exec (get_argv token1 (_build_url self None))]
                  ++ T2)%list) \/
          exists token2 path body,
            (ok = false /\
             evs = (T1 ++ [Exec (get_argv token1 (_build_url self None))] ++ T2
                    ++ [TempWrite path body;
                        Exec (patch_argv token2 path
                                (_build_url self (Some [("updateMask", ENV_PATH)])))]
                   )%list) \/
            (ok = true /\
             evs = (T1 ++ [Exec (get_argv token1 (_build_url self None))] ++ T2
                    ++ [TempWrite path body;
                        Exec (patch_argv token2 path
                                (_build_url self (Some [("updateMask", ENV_PATH)])));
                        Unlink path])%list))).

(** Worlds of the examples for the prerequisite checks. *)

Definition passing_checks : list reply :=
  [Tool (Completed (mkCompleted 0 "/usr/bin/gcloud" EmptyString));
   Tool (Completed (mkCompleted 0 "/usr/bin/curl" EmptyString));
   Tool (Completed (mkCompleted 0 "ACTIVE  dev@acme.example" EmptyString));
   Tool (Completed (mkCompleted 0 "projectId: acme-prod" EmptyString));
   Tool (Completed (mkCompleted 0 "4242" EmptyString))].

(** The engine list does not show the engine. *)
Definition failing_checks : list reply :=
  [Tool (Completed (mkCompleted 0 "/usr/bin/gcloud" EmptyString));
   Tool (Completed (mkCompleted 0 "/usr/bin/curl" EmptyString));
   Tool (Completed (mkCompleted 0 "ACTIVE  dev@acme.example" EmptyString));
   Tool (Completed (mkCompleted 0 "projectId: acme-prod" EmptyString));
   Tool (Completed (mkCompleted 0 "1717" EmptyString))].



Definition example_args : Namespace :=
  mkNamespace "acme-prod" "us-central1" "4242" ["LOG_LEVEL=debug"] false.

(** * Properties *)

Unset Implicit Arguments.

(** ** Dictionaries *)

Section PyDictFacts.
Variables K V : Type.
Variable keq : K -> K -> bool.
Hypothesis keq_refl : forall a, keq a a = true.
Hypothesis keq_sym : forall a b, keq a b = keq b a.
Hypothesis keq_trans :
  forall a b c, keq a b = true -> keq b c = true -> keq a c = true.

Implicit Types (k : K) (v : V) (d : pydict K V).
Local Open Scope list_scope.

Lemma keq_left k1 k2 k : keq k1 k2 = true -> keq k1 k = keq k2 k.
Proof.
  intros H. destruct (keq k2 k) eqn:E.
  - eauto.
  - destruct (keq k1 k) eqn:E1; [|reflexivity].
    rewrite <- E. symmetry. apply keq_trans with k1; [|assumption].
    now rewrite keq_sym.
Qed.

Lemma dict_get_proper k1 k2 d :
  keq k1 k2 = true -> dict_get keq k1 d = dict_get keq k2 d.
Proof.
  intros H. induction d as [|[k' v'] d IH]; simpl; [reflexivity|].
  now rewrite (keq_left _ _ k' H), IH.
Qed.

Lemma key_in_proper k1 k2 d :
  keq k1 k2 = true -> key_in keq k1 d = key_in keq k2 d.
Proof.
  intros H. induction d as [|[k' v'] d IH]; simpl; [reflexivity|].
  now rewrite (keq_left _ _ k' H), IH.
Qed.

Lemma dict_get_None k d : dict_get keq k d = None <-> key_in keq k d = false.
Proof.
  induction d as [|[k' v'] d IH]; simpl; [tauto|].
  destruct (keq k k'); simpl; [split; discriminate | exact IH].
Qed.

Lemma dict_get_app k d1 d2 :
  dict_get keq k (d1 ++ d2) =
  match dict_get keq k d1 with
  | Some v => Some v
  | None => dict_get keq k d2
  end.
Proof.
  induction d1 as [|[k' v'] d1 IH]; simpl; [reflexivity|].
  destruct (keq k k'); [reflexivity | exact IH].
Qed.

Lemma key_in_app k d1 d2 :
  key_in keq k (d1 ++ d2) = key_in keq k d1 || key_in keq k d2.
Proof. unfold key_in. apply existsb_app. Qed.

Lemma get_setitem_same k k' v d :
  keq k k' = true -> dict_get keq k (dict_setitem keq k' v d) = Some v.
Proof.
  intros H. induction d as [|[k2 v2] d IH]; simpl.
  - now rewrite H.
  - destruct (keq k' k2) eqn:E; simpl.
    + now rewrite (keq_trans _ _ _ H E).
    + rewrite (keq_left _ _ k2 H), E. exact IH.
Qed.

Lemma get_setitem_other k k' v d :
  keq k k' = false ->
  dict_get keq k (dict_setitem keq k' v d) = dict_get keq k d.
Proof.
  intros H. induction d as [|[k2 v2] d IH]; simpl.
  - now rewrite H.
  - destruct (keq k' k2) eqn:E; simpl.
    + destruct (keq k k2) eqn:E2; [|reflexivity].
      rewrite keq_sym in E. rewrite (keq_trans _ _ _ E2 E) in H. discriminate.
    + destruct (keq k k2); [reflexivity | exact IH].
Qed.

Lemma key_in_setitem k k' v d :
  key_in keq k (dict_setitem keq k' v d) = keq k k' || key_in keq k d.
Proof.
  induction d as [|[k2 v2] d IH]; simpl.
  - reflexivity.
  - destruct (keq k' k2) eqn:E; simpl.
    + destruct (keq k k') eqn:E1; simpl; [|reflexivity].
      now rewrite (keq_trans _ _ _ E1 E).
    + rewrite IH. destruct (keq k k2), (keq k k'); reflexivity.
Qed.

Lemma keys_setitem_present k v d :
  key_in keq k d = true -> map fst (dict_setitem keq k v d) = map fst d.
Proof.
  induction d as [|[k2 v2] d IH]; simpl; [discriminate|].
  destruct (keq k k2); simpl; intros H; [reflexivity|].
  now rewrite IH.
Qed.

Lemma setitem_absent k v d :
  key_in keq k d = false -> dict_setitem keq k v d = (d ++ [(k, v)])%list.
Proof.
  induction d as [|[k2 v2] d IH]; simpl; [reflexivity|].
  destruct (keq k k2); simpl; intros H; [discriminate|].
  now rewrite IH.
Qed.

Lemma wf_setitem k v d :
  dict_wf keq d = true -> dict_wf keq (dict_setitem keq k v d) = true.
Proof.
  induction d as [|[k2 v2] d IH]; cbn [dict_wf dict_setitem]; [reflexivity|].
  intros H. apply andb_true_iff in H as [H1 H2].
  destruct (keq k k2) eqn:E; cbn [dict_wf]; apply andb_true_iff; split;
    try assumption.
  - rewrite key_in_setitem, (keq_sym k2 k), E. exact H1.
  - now apply IH.
Qed.

Lemma wf_update kvs d :
  dict_wf keq d = true -> dict_wf keq (dict_update keq kvs d) = true.
Proof.
  revert d. induction kvs as [|[k v] kvs IH]; intros d H; simpl; [assumption|].
  apply IH. now apply wf_setitem.
Qed.

Lemma get_update k kvs d :
  dict_get keq k (dict_update keq kvs d) =
  match last_binding keq k kvs with
  | Some v => Some v
  | None => dict_get keq k d
  end.
Proof.
  unfold last_binding. revert d.
  induction kvs as [|[k' v'] kvs IH]; intros d; simpl; [reflexivity|].
  unfold dict_update in *. rewrite IH, dict_get_app. simpl.
  destruct (dict_get keq k (rev kvs)); [reflexivity|].
  destruct (keq k k') eqn:E.
  - now apply get_setitem_same.
  - now apply get_setitem_other.
Qed.

Lemma key_in_update k kvs d :
  key_in keq k (dict_update keq kvs d) = key_in keq k d || key_in keq k kvs.
Proof.
  revert d. induction kvs as [|[k' v'] kvs IH]; intros d; simpl.
  - now rewrite orb_false_r.
  - unfold dict_update in *. simpl. rewrite IH, key_in_setitem.
    destruct (keq k k'), (key_in keq k d); reflexivity.
Qed.

Lemma keys_update_present kvs d :
  (forall kv, In kv kvs -> key_in keq (fst kv) d = true) ->
  map fst (dict_update keq kvs d) = map fst d.
Proof.
  revert d. induction kvs as [|[k v] kvs IH]; intros d H; simpl; [reflexivity|].
  unfold dict_update in *. simpl. rewrite IH.
  - apply keys_setitem_present. apply (H (k, v)). now left.
  - intros kv Hin. rewrite key_in_setitem, (H kv) by now right.
    apply orb_true_r.
Qed.

Lemma wf_app_absent d k v rest :
  dict_wf keq (d ++ (k, v) :: rest) = true -> key_in keq k d = false.
Proof.
  induction d as [|[k2 v2] d IH]; simpl; [reflexivity|].
  intros H. apply andb_true_iff in H as [H1 H2].
  rewrite (IH H2), orb_false_r.
  apply negb_true_iff in H1. rewrite key_in_app in H1.
  apply orb_false_iff in H1 as [_ H1]. simpl in H1.
  apply orb_false_iff in H1 as [H1 _]. now rewrite keq_sym.
Qed.

(** Assigning fresh, pairwise distinct keys appends them in order. *)
Lemma update_fresh kvs d :
  dict_wf keq (d ++ kvs) = true -> dict_update keq kvs d = (d ++ kvs)%list.
Proof.
  revert d. induction kvs as [|[k v] kvs IH]; intros d H; simpl.
  - now rewrite app_nil_r.
  - unfold dict_update in *. simpl.
    rewrite (setitem_absent _ _ _ (wf_app_absent _ _ _ _ H)).
    rewrite IH; rewrite <- app_assoc; simpl; [reflexivity | assumption].
Qed.

Lemma In_get k v d :
  dict_wf keq d = true -> In (k, v) d -> dict_get keq k d = Some v.
Proof.
  induction d as [|[k2 v2] d IH]; simpl; [tauto|].
  intros H [Heq | Hin].
  - injection Heq as -> ->. now rewrite keq_refl.
  - apply andb_true_iff in H as [H1 H2].
    destruct (keq k k2) eqn:E; [|now apply IH].
    apply negb_true_iff in H1.
    rewrite <- (key_in_proper _ _ d E) in H1.
    apply dict_get_None in H1. rewrite (IH H2 Hin) in H1. discriminate.
Qed.

Lemma get_In k v d :
  dict_get keq k d = Some v -> exists k', keq k k' = true /\ In (k', v) d.
Proof.
  induction d as [|[k2 v2] d IH]; simpl; [discriminate|].
  destruct (keq k k2) eqn:E.
  - intros [= ->]. exists k2. auto.
  - intros H. destruct (IH H) as (k' & Hk & Hin). exists k'. auto.
Qed.

(** A dictionary is determined by the order of its keys and its bindings. *)
Lemma dict_ext d1 d2 :
  dict_wf keq d1 = true ->
  map fst d1 = map fst d2 ->
  (forall k, dict_get keq k d1 = dict_get keq k d2) ->
  d1 = d2.
Proof.
  revert d2. induction d1 as [|[k1 v1] d1 IH]; intros [|[k2 v2] d2]; simpl;
    try discriminate; [reflexivity|].
  intros Hwf [= <- Hkeys] Hget.
  apply andb_true_iff in Hwf as [H1 H2]. apply negb_true_iff in H1.
  pose proof (Hget k1) as Hk. rewrite keq_refl in Hk. injection Hk as <-.
  f_equal. apply IH; [assumption | assumption |].
  intros k. specialize (Hget k). destruct (keq k k1) eqn:E; [|assumption].
  assert (Hn1 : key_in keq k d1 = false)
    by now rewrite (key_in_proper _ _ d1 E).
  assert (Hn2 : key_in keq k d2 = false).
  { unfold key_in in *. rewrite <- Hn1.
    clear - Hkeys. revert d2 Hkeys.
    induction d1 as [|[a b] d1 IHd]; intros [|[a' b'] d2]; simpl;
      try discriminate; [reflexivity|].
    intros [= <- Hkeys]. now rewrite (IHd d2 Hkeys). }
  apply dict_get_None in Hn1, Hn2. now rewrite Hn1, Hn2.
Qed.
End PyDictFacts.


(** ** Keys *)

Lemma key_eqb_refl a : key_eqb a a = true.
Proof.
  destruct a; simpl; auto using Bool.eqb_reflx, Z.eqb_refl, String.eqb_refl.
Qed.

Lemma key_eqb_sym a b : key_eqb a b = key_eqb b a.
Proof.
  destruct a, b; simpl; auto using Z.eqb_sym, String.eqb_sym.
  destruct b, b0; reflexivity.
Qed.

Lemma key_eqb_trans a b c :
  key_eqb a b = true -> key_eqb b c = true -> key_eqb a c = true.
Proof.
  destruct a, b, c; simpl; try discriminate; try reflexivity;
    rewrite ?Bool.eqb_true_iff, ?Z.eqb_eq, ?String.eqb_eq;
    try congruence;
    repeat match goal with x : bool |- _ => destruct x end;
    simpl; intros; subst; try discriminate; reflexivity.
Qed.

Ltac key_laws :=
  first [exact key_eqb_refl | exact key_eqb_sym | exact key_eqb_trans].

Lemma key_eqb_KStr n k : key_eqb (KStr n) k = true <-> k = KStr n.
Proof.
  destruct k; simpl; split; try discriminate.
  - intros H. apply String.eqb_eq in H. now subst.
  - intros [= ->]. apply String.eqb_refl.
Qed.

Lemma key_of_json_of_key k : key_of_json (json_of_key k) = Ok k.
Proof. now destruct k. Qed.

Lemma json_of_key_inj k1 k2 : json_of_key k1 = json_of_key k2 -> k1 = k2.
Proof. destruct k1, k2; simpl; congruence. Qed.

(** ** The merge as dictionary updates *)

Lemma entry_env_item e : entry (env_item e) = env_json e.
Proof. reflexivity. Qed.

Lemma overlay_update N d :
  overlay N d = dict_update key_eqb (map env_item N) d.
Proof.
  revert d. induction N as [|e N IH]; intros d; simpl; [reflexivity|].
  apply IH.
Qed.

Lemma comprehension_raise vars e :
  fold_left comprehension_step vars (Raise e) = Raise e.
Proof. induction vars as [|v vars IH]; simpl; [reflexivity | exact IH]. Qed.

Lemma comprehension_entries items d :
  fold_left comprehension_step (map entry items) (Ok d)
  = Ok (dict_update key_eqb items d).
Proof.
  revert d. induction items as [|[k v] items IH]; intros d; [reflexivity|].
  cbn [map fold_left]. unfold comprehension_step at 2. cbn.
  rewrite key_of_json_of_key. cbn. apply IH.
Qed.

Lemma comprehension_typed E :
  dict_comprehension (map env_json E)
  = Ok (dict_update key_eqb (map env_item E) []).
Proof.
  unfold dict_comprehension. rewrite <- comprehension_entries.
  now rewrite map_map.
Qed.

Lemma comprehension_step_Ok d var d1 :
  comprehension_step (Ok d) var = Ok d1 ->
  exists k v, d1 = dict_setitem key_eqb k v d.
Proof.
  unfold comprehension_step. cbn.
  destruct (py_getitem "name" var) as [n|]; cbn; [|discriminate].
  destruct (py_getitem "value" var) as [v|]; cbn; [|discriminate].
  destruct (key_of_json n) as [k|]; cbn; [|discriminate].
  intros [= <-]. now exists k, v.
Qed.

Lemma comprehension_wf vars d d' :
  fold_left comprehension_step vars (Ok d) = Ok d' ->
  dict_wf key_eqb d = true -> dict_wf key_eqb d' = true.
Proof.
  revert d. induction vars as [|var vars IH]; intros d.
  - cbn. now intros [= ->].
  - cbn [fold_left].
    destruct (comprehension_step (Ok d) var) as [d1|e] eqn:E.
    + intros H Hwf. apply (IH d1 H).
      apply comprehension_step_Ok in E as (k & v & ->).
      apply wf_setitem; try key_laws; assumption.
    + rewrite comprehension_raise. discriminate.
Qed.

(** The merged list over a typed env list: one dictionary built from the
    items of [E] followed by those of [N]. *)
Lemma merge_typed cfg E N :
  current_env_of cfg = Ok (JArr (map env_json E)) ->
  _merge_env_vars cfg N
  = Ok (map entry (dict_update key_eqb (map env_item (E ++ N)) [])).
Proof.
  intros H. unfold _merge_env_vars. rewrite H. cbn.
  rewrite comprehension_typed. cbn.
  rewrite overlay_update, map_app. unfold dict_update.
  now rewrite fold_left_app.
Qed.

Lemma current_env_of_config_with_env E :
  current_env_of (config_with_env E) = Ok (JArr (map env_json E)).
Proof. reflexivity. Qed.

Lemma key_in_items n L :
  key_in key_eqb (KStr n) (map env_item L) = true <-> In n (map name L).
Proof.
  induction L as [|e L IH]; simpl; [split; [discriminate | tauto]|].
  rewrite orb_true_iff, IH, String.eqb_eq. intuition congruence.
Qed.

Lemma key_in_items_false n L :
  ~ In n (map name L) -> key_in key_eqb (KStr n) (map env_item L) = false.
Proof.
  intros H. destruct (key_in key_eqb (KStr n) (map env_item L)) eqn:E;
    [|reflexivity].
  apply key_in_items in E. contradiction.
Qed.

Lemma last_binding_items n N :
  last_binding key_eqb (KStr n) (map env_item N)
  = option_map JStr (last_value n N).
Proof.
  unfold last_binding, last_value. rewrite <- map_rev.
  induction (rev N) as [|e L IH]; simpl; [reflexivity|].
  rewrite (String.eqb_sym (name e) n).
  destruct (String.eqb n (name e)); [reflexivity | exact IH].
Qed.

Lemma find_append {A : Type} (f : A -> bool) (l1 l2 : list A) :
  find f (l1 ++ l2)%list =
  match find f l1 with
  | Some x => Some x
  | None => find f l2
  end.
Proof.
  induction l1 as [|a l1 IH]; cbn; [reflexivity|].
  destruct (f a); [reflexivity | exact IH].
Qed.

Lemma last_value_app n A B :
  last_value n (A ++ B)%list =
  match last_value n B with
  | Some v => Some v
  | None => last_value n A
  end.
Proof.
  unfold last_value. rewrite rev_app_distr, find_append.
  now destruct (find _ (rev B)).
Qed.

Lemma last_value_In n N v :
  last_value n N = Some v -> In (mkEnvVar n v) N.
Proof.
  unfold last_value. intros H.
  destruct (find _ (rev N)) as [e|] eqn:E; [|discriminate].
  apply find_some in E as [Hin Hn]. apply in_rev in Hin.
  apply String.eqb_eq in Hn. simpl in H. injection H as <-. subst n.
  now destruct e.
Qed.

Lemma last_value_None n N : last_value n N = None <-> ~ In n (map name N).
Proof.
  unfold last_value. split.
  - intros H Hin. apply in_map_iff in Hin as (e & He & Hin).
    destruct (find _ (rev N)) as [e'|] eqn:E; [discriminate|].
    apply in_rev in Hin. pose proof (find_none _ _ E e Hin) as Hf.
    cbn in Hf. rewrite He, String.eqb_refl in Hf. discriminate.
  - intros H. destruct (find _ (rev N)) as [e|] eqn:E; [|reflexivity].
    apply find_some in E as [Hin Hn]. apply in_rev in Hin.
    apply String.eqb_eq in Hn. exfalso. apply H. subst n. now apply in_map.
Qed.

Lemma dict_wf_nil : dict_wf key_eqb (@nil (pykey * json)) = true.
Proof. reflexivity. Qed.

(** An entry is in the merged list exactly when the dictionary binds its
    name to its value. *)
Lemma In_merged_iff items n v :
  In (JObj [("name", JStr n); ("value", v)])
     (map entry (dict_update key_eqb items []))
  <-> dict_get key_eqb (KStr n) (dict_update key_eqb items []) = Some v.
Proof.
  set (D := dict_update key_eqb items []).
  assert (Hwf : dict_wf key_eqb D = true)
    by (apply wf_update; try key_laws; reflexivity).
  split.
  - intros H. apply in_map_iff in H as ([k v'] & Heq & Hin).
    unfold entry in Heq. simpl in Heq. injection Heq as Hk ->.
    apply (json_of_key_inj k (KStr n)) in Hk. subst k.
    apply In_get; try key_laws; assumption.
  - intros H. apply get_In in H as (k' & Hk & Hin).
    apply key_eqb_KStr in Hk. subst k'.
    apply in_map_iff. exists (KStr n, v). auto.
Qed.


(** ** More on dictionaries *)

Section PyDictUpdates.
Variables K V : Type.
Variable keq : K -> K -> bool.
Hypothesis keq_refl : forall a, keq a a = true.
Hypothesis keq_sym : forall a b, keq a b = keq b a.
Hypothesis keq_trans :
  forall a b c, keq a b = true -> keq b c = true -> keq a c = true.

Implicit Types (k : K) (v : V) (d : pydict K V).
Local Open Scope list_scope.

Lemma last_binding_app k (kvs1 kvs2 : list (K * V)) :
  last_binding keq k (kvs1 ++ kvs2) =
  match last_binding keq k kvs2 with
  | Some v => Some v
  | None => last_binding keq k kvs1
  end.
Proof. unfold last_binding. now rewrite rev_app_distr, dict_get_app. Qed.

Lemma last_binding_cons k k' v (kvs : list (K * V)) :
  last_binding keq k ((k', v) :: kvs) =
  match last_binding keq k kvs with
  | Some v' => Some v'
  | None => if keq k k' then Some v else None
  end.
Proof. apply (last_binding_app k [(k', v)] kvs). Qed.

Lemma key_in_In k v d : In (k, v) d -> key_in keq k d = true.
Proof.
  intros H. apply existsb_exists. exists (k, v). split; [assumption|].
  apply keq_refl.
Qed.

(** Assigning the same bindings a second time changes nothing. *)
Lemma update_twice kvs d :
  dict_wf keq d = true ->
  dict_update keq kvs (dict_update keq kvs d) = dict_update keq kvs d.
Proof.
  intros Hwf. apply (dict_ext K V keq keq_refl keq_sym keq_trans).
  - apply wf_update; try assumption. now apply wf_update.
  - apply keys_update_present; try assumption. intros [k v] Hin.
    cbn [fst].
    rewrite key_in_update by assumption.
    rewrite (key_in_In k v kvs Hin). apply orb_true_r.
  - intros k.
    rewrite (get_update K V keq keq_sym keq_trans k kvs (dict_update keq kvs d)).
    destruct (last_binding keq k kvs) as [v|] eqn:E; [|reflexivity].
    now rewrite (get_update K V keq keq_sym keq_trans), E.
Qed.
End PyDictUpdates.

(** ** Typed env lists inside the dictionary *)

Lemma setitem_typed n v M :
  exists M', dict_setitem key_eqb (KStr n) (JStr v) (map env_item M)
             = map env_item M'.
Proof.
  induction M as [|e M (M' & IH)]; cbn [map dict_setitem].
  - now exists [mkEnvVar n v].
  - unfold env_item at 1. cbn [key_eqb].
    destruct (String.eqb n (name e)).
    + now exists (mkEnvVar (name e) v :: M).
    + exists (e :: M'). cbn [map]. now rewrite <- IH.
Qed.

Lemma update_typed N M :
  exists M', dict_update key_eqb (map env_item N) (map env_item M)
             = map env_item M'.
Proof.
  revert M. induction N as [|e N IH]; intros M; cbn.
  - now exists M.
  - destruct (setitem_typed (name e) (value e) M) as (M1 & ->). apply IH.
Qed.

Lemma wf_items_NoDup M :
  dict_wf key_eqb (map env_item M) = true <-> NoDup (map name M).
Proof.
  induction M as [|e M IH]; cbn [map dict_wf].
  - split; [constructor | reflexivity].
  - unfold env_item at 1. rewrite andb_true_iff, negb_true_iff, IH.
    split.
    + intros [H1 H2]. constructor; [|assumption].
      intros Hin. apply key_in_items in Hin. congruence.
    + intros H. inversion H as [|? ? Hn Hd]; subst. split; [|assumption].
      now apply key_in_items_false.
Qed.

Lemma env_json_inj e1 e2 : env_json e1 = env_json e2 -> e1 = e2.
Proof. destruct e1, e2. unfold env_json. cbn. congruence. Qed.

Lemma path_missing_empty cfg :
  path_missing cfg -> current_env_of cfg = Ok (JArr []).
Proof.
  intros (top & -> & [H | (spec & Hs & [H | (dep & Hd & H)])]);
    unfold current_env_of; cbn.
  - now rewrite H.
  - rewrite Hs. cbn. now rewrite H.
  - rewrite Hs. cbn. rewrite Hd. cbn. now rewrite H.
Qed.

(** The binding of [n] in the merged dictionary of typed lists. *)
Lemma get_merged n E N :
  dict_get key_eqb (KStr n) (dict_update key_eqb (map env_item (E ++ N)) [])
  = match last_value n N with
    | Some v => Some (JStr v)
    | None => option_map JStr (last_value n E)
    end.
Proof.
  rewrite get_update by key_laws. cbn [dict_get].
  rewrite map_app, last_binding_app, !last_binding_items.
  destruct (last_value n N); cbn; [reflexivity|].
  now destruct (last_value n E).
Qed.

(** * The merge: claims *)

(** C2, as stated, fails: with the remote list
    [LOG_LEVEL=info, LOG_LEVEL=debug] and the new variable
    [TRACE_ENABLED=true], the entry [LOG_LEVEL=info] carries a name that the
    new variables do not mention, and it is absent from the merged list. *)
Lemma merge_drops_repeated_name :
  exists e out,
    In e twice_log_level /\
    ~ In (name e) (map name trace_enabled) /\
    _merge_env_vars (config_with_env twice_log_level) trace_enabled = Ok out /\
    ~ In (env_json e) out.
Proof.
  exists (mkEnvVar "LOG_LEVEL" "info"). eexists.
  split; [now left|]. split.
  - cbn. intros [H | []]. discriminate.
  - split; [reflexivity|]. cbn. intros [H | [H | []]]; discriminate.
Qed.

(** C2, amended: an entry of the existing list whose name is neither among
    the new variables nor repeated later in the existing list is in the
    merged list, with its value. *)
Theorem merge_preserves_unmentioned cfg E1 e E2 N :
  current_env_of cfg = Ok (JArr (map env_json (E1 ++ e :: E2)%list)) ->
  ~ In (name e) (map name E2) ->
  ~ In (name e) (map name N) ->
  exists out, _merge_env_vars cfg N = Ok out /\ In (env_json e) out.
Proof.
  intros Hcfg HE2 HN. rewrite (merge_typed cfg _ N Hcfg).
  eexists. split; [reflexivity|].
  apply (In_merged_iff _ (name e) (JStr (value e))).
  rewrite get_merged.
  apply last_value_None in HN. rewrite HN. clear HN.
  change (e :: E2) with ([e] ++ E2)%list.
  rewrite !last_value_app.
  apply last_value_None in HE2. rewrite HE2.
  unfold last_value. cbn. now rewrite String.eqb_refl.
Qed.

Lemma merge_preserves_unmentioned_witness :
  exists out,
    _merge_env_vars (config_with_env log_info) trace_enabled = Ok out /\
    In (env_json (mkEnvVar "LOG_LEVEL" "info")) out.
Proof.
  apply (merge_preserves_unmentioned
           (config_with_env log_info) [] (mkEnvVar "LOG_LEVEL" "info") []
           trace_enabled).
  - reflexivity.
  - cbn. tauto.
  - cbn. intros [H | []]. discriminate.
Defined.

(** C3: a name of the existing list that the new variables mention is
    bound, in the merged list, to the value of the last new variable of that
    name, and to nothing else. *)
Theorem merge_last_write_wins cfg E N n :
  current_env_of cfg = Ok (JArr (map env_json E)) ->
  In n (map name E) ->
  In n (map name N) ->
  exists out v,
    _merge_env_vars cfg N = Ok out /\
    last_value n N = Some v /\
    In (env_json (mkEnvVar n v)) out /\
    forall w, In (JObj [("name", JStr n); ("value", w)]) out -> w = JStr v.
Proof.
  intros Hcfg _ HN. rewrite (merge_typed cfg _ N Hcfg).
  destruct (last_value n N) as [v|] eqn:Hv.
  - eexists. exists v. split; [reflexivity|]. split; [reflexivity|]. split.
    + apply (In_merged_iff _ n (JStr v)). now rewrite get_merged, Hv.
    + intros w Hw. apply In_merged_iff in Hw.
      rewrite get_merged, Hv in Hw. congruence.
  - apply last_value_None in Hv. contradiction.
Qed.

Lemma merge_last_write_wins_witness :
  exists out v,
    _merge_env_vars (config_with_env log_info)
                    (twice_log_level ++ trace_enabled)%list = Ok out /\
    last_value "LOG_LEVEL" (twice_log_level ++ trace_enabled)%list = Some v /\
    In (env_json (mkEnvVar "LOG_LEVEL" v)) out /\
    forall w, In (JObj [("name", JStr "LOG_LEVEL"); ("value", w)]) out
              -> w = JStr v.
Proof.
  apply (merge_last_write_wins (config_with_env log_info) log_info).
  - reflexivity.
  - cbn. tauto.
  - cbn. tauto.
Defined.

(** C6, as stated, fails: merging nothing into
    [LOG_LEVEL=info, LOG_LEVEL=debug] does not give the list back. *)
Lemma merge_nothing_not_identity :
  _merge_env_vars (config_with_env twice_log_level) []
  <> Ok (map env_json twice_log_level).
Proof. cbn. discriminate. Qed.

(** C6, amended: merging the empty list of new variables into an existing
    list whose names are pairwise distinct gives that list back, in its
    order. *)
Theorem merge_nothing_is_identity cfg E :
  current_env_of cfg = Ok (JArr (map env_json E)) ->
  NoDup (map name E) ->
  _merge_env_vars cfg [] = Ok (map env_json E).
Proof.
  intros Hcfg Hnd. rewrite (merge_typed cfg _ [] Hcfg), app_nil_r.
  rewrite update_fresh; [| key_laws |].
  - cbn [app]. now rewrite map_map.
  - cbn [app]. now apply wf_items_NoDup.
Qed.

Lemma merge_nothing_is_identity_witness :
  _merge_env_vars (config_with_env log_debug_and_trace) []
  = Ok (map env_json log_debug_and_trace).
Proof.
  apply (merge_nothing_is_identity (config_with_env log_debug_and_trace)).
  - reflexivity.
  - cbn. repeat constructor; cbn; intuition discriminate.
Defined.

Lemma path_missing_absent cfg : path_missing cfg -> env_path_absent cfg.
Proof.
  intros (top & -> & [H | (spec & Hs & [H | (dep & Hd & H)])]);
    unfold env_path_absent, env_list_at; cbn [field].
  - now rewrite H.
  - rewrite Hs. cbn [field]. now rewrite H.
  - rewrite Hs. cbn [field]. rewrite Hd. cbn [field]. exact H.
Qed.

(** Of the documents with nothing at the env-list path, the merge accepts
    exactly those in which a key is absent from an object. *)
Lemma merge_on_absent_path cfg N :
  env_path_absent cfg ->
  ((exists out, _merge_env_vars cfg N = Ok out) <-> path_missing cfg).
Proof.
  intros Habs. split.
  - intros [out H]. unfold _merge_env_vars, current_env_of in H.
    unfold env_path_absent, env_list_at in Habs.
    destruct cfg as [| | | | |top]; try (cbn in H; discriminate).
    exists top. split; [reflexivity|].
    cbn [py_get rbind field] in H, Habs.
    destruct (obj_lookup "spec" top) as [spec|]; [|now left].
    right. destruct spec as [| | | | |spec]; try (cbn in H; discriminate).
    exists spec. split; [reflexivity|].
    cbn [py_get rbind field] in H, Habs.
    destruct (obj_lookup "deploymentSpec" spec) as [dep|]; [|now left].
    right. destruct dep as [| | | | |dep]; try (cbn in H; discriminate).
    exists dep. split; [reflexivity|]. exact Habs.
  - intros Hmiss. apply path_missing_empty in Hmiss.
    unfold _merge_env_vars. rewrite Hmiss. cbn. eauto.
Qed.

(** C7, as stated, fails in its first half: in the document
    [{"spec": null}] nothing stands at the env-list path, and the merge
    raises [AttributeError] instead of taking the existing list as empty. *)
Lemma merge_raises_on_null_parent :
  env_path_absent (JObj [("spec", JNull)]) /\
  _merge_env_vars (JObj [("spec", JNull)]) trace_enabled = Raise AttributeError.
Proof. split; reflexivity. Qed.

(** C7, amended: when a key of the env-list path is absent from the object
    that should hold it, the merge takes the existing list as empty and does
    not fail; its result is a list of entries with pairwise distinct names
    that binds exactly the names of the new variables, each to the value of
    the last new variable of that name: the new variables as a name to value
    map. *)
Theorem merge_absent_env cfg N :
  path_missing cfg ->
  exists M,
    _merge_env_vars cfg N = Ok (map env_json M) /\
    _merge_env_vars (config_with_env []) N = Ok (map env_json M) /\
    NoDup (map name M) /\
    forall n v, In (mkEnvVar n v) M <-> last_value n N = Some v.
Proof.
  intros Hmiss. apply path_missing_empty in Hmiss.
  pose proof (merge_typed cfg [] N Hmiss) as H1.
  pose proof (merge_typed (config_with_env []) [] N eq_refl) as H2.
  cbn [app] in H1, H2.
  destruct (update_typed N []) as (M & HM). cbn [map] in HM.
  assert (Hwf : dict_wf key_eqb (dict_update key_eqb (map env_item N) []) = true)
    by (apply wf_update; try key_laws; reflexivity).
  assert (Hout : map entry (dict_update key_eqb (map env_item N) [])
                 = map env_json M) by (now rewrite HM, map_map).
  exists M. rewrite H1, H2, Hout. repeat split.
  - apply wf_items_NoDup. now rewrite <- HM.
  - intros Hin. apply (in_map env_json) in Hin. rewrite <- Hout in Hin.
    apply (In_merged_iff _ n (JStr v)) in Hin.
    pose proof (get_merged n [] N) as Hg. cbn [app] in Hg.
    rewrite Hg in Hin. destruct (last_value n N); cbn in Hin; congruence.
  - intros Hv. pose proof (get_merged n [] N) as Hg. cbn [app] in Hg.
    rewrite Hv in Hg. apply (In_merged_iff _ n (JStr v)) in Hg.
    rewrite Hout in Hg. apply in_map_iff in Hg as (e & He & Hin).
    apply (env_json_inj e (mkEnvVar n v)) in He. now subst e.
Qed.

Lemma merge_absent_env_witness :
  exists M,
    _merge_env_vars (JObj [("name", JStr "engine")]) twice_log_level
    = Ok (map env_json M) /\
    _merge_env_vars (config_with_env []) twice_log_level
    = Ok (map env_json M) /\
    NoDup (map name M) /\
    forall n v, In (mkEnvVar n v) M <-> last_value n twice_log_level = Some v.
Proof.
  apply (merge_absent_env (JObj [("name", JStr "engine")]) twice_log_level).
  exists [("name", JStr "engine")]. split; [reflexivity|]. now left.
Defined.

(** C8: merging the same new variables into the result of a merge gives
    that result again. *)
Theorem merge_idempotent cfg cfg' N out :
  _merge_env_vars cfg N = Ok out ->
  current_env_of cfg' = Ok (JArr out) ->
  _merge_env_vars cfg' N = Ok out.
Proof.
  unfold _merge_env_vars. intros H H'.
  destruct (current_env_of cfg) as [env|]; cbn in H; [|discriminate].
  destruct (py_iter env) as [vars|]; cbn in H; [|discriminate].
  destruct (dict_comprehension vars) as [d0|] eqn:Hd; cbn in H; [|discriminate].
  injection H as <-.
  assert (Hwf0 : dict_wf key_eqb d0 = true)
    by (apply (comprehension_wf vars [] d0 Hd); reflexivity).
  rewrite H'. cbn. unfold dict_comprehension.
  rewrite comprehension_entries. cbn.
  rewrite !overlay_update.
  assert (Hwf : dict_wf key_eqb (dict_update key_eqb (map env_item N) d0) = true)
    by (apply wf_update; try key_laws; assumption).
  rewrite (update_fresh _ _ key_eqb key_eqb_sym _ []) by exact Hwf.
  cbn [app]. rewrite update_twice; try key_laws; [reflexivity | assumption].
Qed.

Lemma merge_idempotent_witness :
  _merge_env_vars (config_with_env log_debug_and_trace)
                  (twice_log_level ++ trace_enabled)%list
  = Ok (map env_json log_debug_and_trace).
Proof.
  apply (merge_idempotent (config_with_env log_info)
                          (config_with_env log_debug_and_trace)).
  - reflexivity.
  - reflexivity.
Defined.


(** * The command line: claims *)

Lemma prefix_eq_sign c rest :
  prefix "=" (String c rest) = Ascii.eqb c "="%char.
Proof.
  cbn [prefix]. destruct (ascii_dec "=" c) as [<- | Hne].
  - now destruct rest.
  - symmetry. apply Ascii.eqb_neq. congruence.
Qed.

Lemma str_contains_eq_cons c rest :
  str_contains "=" (String c rest)
  = Ascii.eqb c "="%char || str_contains "=" rest.
Proof. cbn [str_contains]. now rewrite prefix_eq_sign. Qed.

Lemma partition_eq_Some var :
  str_contains "=" var = true ->
  exists key value,
    partition_eq var = Some (key, value) /\
    var = key ++ "=" ++ value /\
    str_contains "=" key = false.
Proof.
  induction var as [|c rest IH]; [discriminate|].
  rewrite str_contains_eq_cons. cbn [partition_eq].
  destruct (Ascii.eqb c "=") eqn:Ec.
  - intros _. apply Ascii.eqb_eq in Ec. subst c.
    exists EmptyString, rest. repeat split.
  - cbn [orb]. intros H. destruct (IH H) as (key & value & Hp & Hv & Hk).
    exists (String c key), value. rewrite Hp. repeat split.
    + rewrite Hv at 1. reflexivity.
    + now rewrite str_contains_eq_cons, Ec, Hk.
Qed.

Lemma partition_eq_None var :
  str_contains "=" var = false -> partition_eq var = None.
Proof.
  induction var as [|c rest IH]; [reflexivity|].
  rewrite str_contains_eq_cons. cbn [partition_eq].
  destruct (Ascii.eqb c "="); [discriminate|].
  cbn [orb]. intros H. now rewrite (IH H).
Qed.



Lemma parse_env_vars_malformed vars env_vars :
  (exists var, In var vars /\ str_contains "=" var = false) ->
  parse_env_vars vars env_vars = Raise (SystemExit 1).
Proof.
  revert env_vars. induction vars as [|var rest IH]; intros env_vars.
  - intros (var & [] & _).
  - intros (bad & Hin & Hbad). cbn [parse_env_vars].
    destruct (str_contains "=" var) eqn:Hc; [|reflexivity].
    cbn [negb].
    destruct (partition_eq_Some var Hc) as (key & value & Hp & _ & _).
    unfold split_eq_1. rewrite Hp. apply IH. exists bad.
    destruct Hin as [-> | Hin]; [congruence | auto].
Qed.



(** * The update pipeline: claims *)

Section PipelineFacts.
Variable W : Type.
Variable subprocess_run : list string -> W -> run_outcome * W.
Variable time_time : W -> Z * W.
Variable mkstemp : W -> string * W.
Variable json_loads : string -> option json.
Variable self : configurator.

Local Open Scope list_scope.
Implicit Types st : state W.

Lemma made_nil st : made st st [].
Proof. unfold made. now rewrite app_nil_r. Qed.

Lemma made_trans st st1 st2 evs1 evs2 :
  made st st1 evs1 -> made st1 st2 evs2 -> made st st2 (evs1 ++ evs2).
Proof. unfold made. intros H1 H2. now rewrite H2, H1, app_assoc. Qed.

Lemma no_patch_app evs1 evs2 :
  no_patch evs1 -> no_patch evs2 -> no_patch (evs1 ++ evs2).
Proof.
  intros H1 H2 ev Hin. apply in_app_or in Hin as [Hin | Hin]; auto.
Qed.

Lemma bind_raise {A B : Type} (m : M W A) (k : A -> M W B) st e st1 :
  m st = (Raise e, st1) -> bind m k st = (Raise e, st1).
Proof. unfold bind. now intros ->. Qed.

Lemma bind_ok {A B : Type} (m : M W A) (k : A -> M W B) st a st1 :
  m st = (Ok a, st1) -> bind m k st = k a st1.
Proof. unfold bind. now intros ->. Qed.

(** [subprocess.run(argv, check=True)] makes one request and raises on a
    non-zero return code. *)
Lemma run_check argv st :
  exists w outcome,
    subprocess_run argv (world st) = (outcome, w) /\
    let st1 := mkState w (trace st ++ [Exec argv])
                       (_access_token st) (_token_refreshed_at st) in
    run subprocess_run true argv st =
    (match outcome with
     | NotFound => Raise FileNotFoundError
     | Completed cp =>
         if (returncode cp =? 0)%Z then Ok cp
         else Raise (CalledProcessError (returncode cp) (stderr cp))
     end, st1).
Proof.
  unfold run. destruct (subprocess_run argv (world st)) as [outcome w].
  exists w, outcome. split; [reflexivity|]. cbn.
  destruct outcome as [cp|]; [|reflexivity].
  now destruct (returncode cp =? 0)%Z.
Qed.

(** The token is read from the cache or asked of [gcloud]; nothing else
    is started. *)
Lemma token_requests force st r st1 :
  _get_access_token subprocess_run time_time force st = (r, st1) ->
  exists evs, made st st1 evs /\ no_patch evs.
Proof.
  unfold _get_access_token, bind, now, get_state.
  destruct (time_time (world st)) as [t w]. cbn.
  destruct (negb force && truthy (_access_token st)
            && (t - _token_refreshed_at st <? 3000)%Z).
  - unfold ret. intros [= <- <-]. exists []. split.
    + unfold made. cbn. now rewrite app_nil_r.
    + intros ev [].
  - unfold try_except, bind.
    match goal with
    | |- context [run subprocess_run true ?argv ?s] =>
        destruct (run_check argv s) as (w1 & outcome & _ & Hrun)
    end.
    cbn in Hrun. rewrite Hrun. clear Hrun.
    assert (Hnp : no_patch [Exec ["gcloud"; "auth"; "print-access-token"]])
      by (intros ev [<- | []]; reflexivity).
    destruct outcome as [cp|].
    + destruct (returncode cp =? 0)%Z; cbn; intros [= <- <-];
        (eexists; split; [unfold made; cbn; reflexivity | exact Hnp]).
    + cbn. intros [= <- <-].
      eexists; split; [unfold made; cbn; reflexivity | exact Hnp].
Qed.

(** What the fetch makes of the answer of [curl]: a non-zero return code is
    a [CalledProcessError], an undecodable body a [JSONDecodeError], and a
    decodable body is returned. *)
Lemma fetch_after_token st token st0 :
  _get_access_token subprocess_run time_time false st = (Ok token, st0) ->
  exists w outcome,
    subprocess_run (get_argv token (_build_url self None)) (world st0)
    = (outcome, w) /\
    let st1 := mkState w (trace st0 ++ [Exec (get_argv token (_build_url self None))])
                       (_access_token st0) (_token_refreshed_at st0) in
    get_current_config subprocess_run time_time json_loads self st =
    (match outcome with
     | NotFound => Raise FileNotFoundError
     | Completed cp =>
         if (returncode cp =? 0)%Z then
           match json_loads (stdout cp) with
           | Some doc => Ok doc
           | None => Raise JSONDecodeError
           end
         else Raise (CalledProcessError (returncode cp) (stderr cp))
     end, st1).
Proof.
  intros Htok. unfold get_current_config.
  rewrite (bind_ok _ _ _ _ _ Htok).
  destruct (run_check (get_argv token (_build_url self None)) st0)
    as (w & outcome & Hsub & Hrun).
  exists w, outcome. split; [assumption|]. cbn in Hrun |- *.
  unfold try_except, bind. rewrite Hrun.
  destruct outcome as [cp|]; [|reflexivity].
  destruct (returncode cp =? 0)%Z; [|reflexivity].
  unfold loads. now destruct (json_loads (stdout cp)).
Qed.

(** The fetch starts the token command at most, and the GET. *)
Lemma fetch_requests st r st1 :
  get_current_config subprocess_run time_time json_loads self st = (r, st1) ->
  exists evs, made st st1 evs /\ no_patch evs.
Proof.
  destruct (_get_access_token subprocess_run time_time false st)
    as [[token|e] st0] eqn:Htok.
  - destruct (token_requests _ _ _ _ Htok) as (evs0 & Hm0 & Hn0).
    destruct (fetch_after_token st token st0 Htok) as (w & outcome & _ & Hget).
    cbn in Hget. rewrite Hget. intros [= _ <-].
    exists (evs0 ++ [Exec (get_argv token (_build_url self None))]). split.
    + apply (made_trans _ _ _ _ _ Hm0). unfold made. reflexivity.
    + apply no_patch_app; [assumption|]. intros ev [<- | []]. reflexivity.
  - unfold get_current_config. rewrite (bind_raise _ _ _ _ _ Htok).
    intros [= _ <-]. exact (token_requests _ _ _ _ Htok).
Qed.
End PipelineFacts.

Section PipelineClaims.
Variable W : Type.
Variable subprocess_run : list string -> W -> run_outcome * W.
Variable time_time : W -> Z * W.
Variable mkstemp : W -> string * W.
Variable json_loads : string -> option json.
Variable self : configurator.

Local Open Scope list_scope.
Implicit Types st : state W.

Lemma build_url_mask :
  _build_url self (Some [("updateMask", ENV_PATH)])
  = (_build_url self None ++ "?updateMask=spec.deploymentSpec.env")%string.
Proof.
  unfold _build_url. cbv zeta.
  replace (urlencode [("updateMask", ENV_PATH)])
    with "updateMask=spec.deploymentSpec.env" by (vm_compute; reflexivity).
  reflexivity.
Qed.

(** When the fetch raises, whatever the exception, the update raises the
    same exception in the same state, and no PATCH was started since the
    update began. *)
Theorem fetch_failure_never_patches new_vars st e st1 :
  get_current_config subprocess_run time_time json_loads self st
  = (Raise e, st1) ->
  update_env_vars subprocess_run time_time mkstemp json_loads self new_vars st
  = (Raise e, st1)
  /\ exists evs, made st st1 evs /\ no_patch evs.
Proof.
  intros Hget. split.
  - unfold update_env_vars. now apply bind_raise.
  - exact (fetch_requests _ _ _ _ _ _ _ _ Hget).
Qed.

(** C4: every PATCH that the update starts is sent to the resource URL
    followed by the single query parameter
    [updateMask=spec.deploymentSpec.env], and its data is the file written
    for it, which holds the object
    [{"spec": {"deploymentSpec": {"env": merged}}}] and nothing else, where
    [merged] is the merge of the fetched document with the new variables. *)
Theorem patch_is_scoped_to_env new_vars st r st1 :
  update_env_vars subprocess_run time_time mkstemp json_loads self new_vars st
  = (r, st1) ->
  exists evs,
    made st st1 evs /\
    forall ev, In ev evs -> is_patch ev = true ->
      exists token body_file current merged st0,
        get_current_config subprocess_run time_time json_loads self st
        = (Ok current, st0) /\
        _merge_env_vars current new_vars = Ok merged /\
        ev = Exec ["curl"; "-s"; "-X"; "PATCH";
                   "-H"; ("Authorization: Bearer " ++ token)%string;
                   "-H"; "Content-Type: application/json";
                   "-d"; ("@" ++ body_file)%string;
                   (_build_url self None
                    ++ "?updateMask=spec.deploymentSpec.env")%string] /\
        In (TempWrite body_file
              (JObj [("spec",
                      JObj [("deploymentSpec",
                             JObj [("env", JArr merged)])])]))
           evs.
Proof.
  unfold update_env_vars.
  destruct (get_current_config subprocess_run time_time json_loads self st)
    as [[current|e] st0] eqn:Hget.
  2:{ rewrite (bind_raise _ _ _ _ _ _ Hget). intros [= _ <-].
      destruct (fetch_requests _ _ _ _ _ _ _ _ Hget) as (evs & Hm & Hn).
      exists evs. split; [assumption|]. intros ev Hin Hp.
      rewrite (Hn ev Hin) in Hp. discriminate. }
  rewrite (bind_ok _ _ _ _ _ _ Hget).
  destruct (fetch_requests _ _ _ _ _ _ _ _ Hget) as (evs0 & Hm0 & Hn0).
  unfold bind at 1. unfold lift.
  destruct (_merge_env_vars current new_vars) as [merged|e] eqn:Hmerge.
  2:{ intros [= _ <-]. exists evs0. split; [assumption|]. intros ev Hin Hp.
      rewrite (Hn0 ev Hin) in Hp. discriminate. }
  destruct (_get_access_token subprocess_run time_time false st0)
    as [[token|e] st2] eqn:Htok.
  2:{ rewrite (bind_raise _ _ _ _ _ _ Htok). intros [= _ <-].
      destruct (token_requests _ _ _ _ _ _ _ Htok) as (evs1 & Hm1 & Hn1).
      exists (evs0 ++ evs1). split; [now apply made_trans with st0|].
      intros ev Hin Hp.
      rewrite (no_patch_app _ _ Hn0 Hn1 ev Hin) in Hp. discriminate. }
  rewrite (bind_ok _ _ _ _ _ _ Htok).
  destruct (token_requests _ _ _ _ _ _ _ Htok) as (evs1 & Hm1 & Hn1).
  rewrite build_url_mask.
  unfold try_except, bind, temp_write.
  destruct (mkstemp (world st2)) as [body_file w2].
  match goal with
  | |- context [run subprocess_run true ?argv ?s] =>
      destruct (run_check _ subprocess_run argv s) as (w3 & outcome & _ & Hrun)
  end.
  cbv zeta in Hrun. rewrite Hrun. clear Hrun.
  set (body := patch_body_of merged).
  set (patch := Exec (patch_argv token body_file
                 (_build_url self None ++ "?updateMask=spec.deploymentSpec.env")%string)).
  intros Hres.
  assert (Htail : exists tail,
             made st2 st1 ([TempWrite body_file body; patch] ++ tail) /\
             no_patch tail).
  { destruct outcome as [cp|].
    - destruct (returncode cp =? 0)%Z.
      + unfold loads in Hres. destruct (json_loads (stdout cp)) as [doc|].
        * injection Hres as _ <-. exists [Unlink body_file]. split.
          -- unfold made. cbn [trace app]. now rewrite <- !app_assoc.
          -- intros ev [<- | []]. reflexivity.
        * injection Hres as _ <-. exists []. split.
          -- unfold made. cbn [trace app]. now rewrite <- !app_assoc.
          -- intros ev [].
      + injection Hres as _ <-. exists []. split.
        * unfold made. cbn [trace app]. now rewrite <- !app_assoc.
        * intros ev [].
    - injection Hres as _ <-. exists []. split.
      + unfold made. cbn [trace app]. now rewrite <- !app_assoc.
      + intros ev []. }
  destruct Htail as (tail & Hm2 & Hn2).
  exists (evs0 ++ evs1 ++ [TempWrite body_file body; patch] ++ tail). split.
  - apply made_trans with st0; [assumption|]. now apply made_trans with st2.
  - intros ev Hin Hp.
    exists token, body_file, current, merged, st0.
    split; [reflexivity|]. split; [assumption|]. split.
    + apply in_app_or in Hin as [Hin | Hin];
        [rewrite (Hn0 ev Hin) in Hp; discriminate|].
      apply in_app_or in Hin as [Hin | Hin];
        [rewrite (Hn1 ev Hin) in Hp; discriminate|].
      destruct Hin as [<- | [<- | Hin]]; [discriminate | reflexivity |].
      rewrite (Hn2 ev Hin) in Hp. discriminate.
    + apply in_or_app. right. apply in_or_app. right. now left.
Qed.

(** The GET is run without [--fail]. *)
Lemma get_argv_no_fail token :
  Curl.fail_on_error (get_argv token (_build_url self None)) = false.
Proof. reflexivity. Qed.

(** When no HTTP response comes back the fetch raises
    [CalledProcessError]. *)
Lemma fetch_network_failure st token st0 code w :
  _get_access_token subprocess_run time_time false st = (Ok token, st0) ->
  subprocess_run (get_argv token (_build_url self None)) (world st0)
  = (Completed (Curl.completed (get_argv token (_build_url self None))
                               (Curl.NoResponse code)), w) ->
  fst (get_current_config subprocess_run time_time json_loads self st)
  = Raise (CalledProcessError (Zpos code) EmptyString).
Proof.
  intros Htok Hsub.
  destruct (fetch_after_token _ subprocess_run time_time json_loads self
              st token st0 Htok) as (w' & outcome & Hsub' & Hget).
  rewrite Hsub in Hsub'. injection Hsub' as <- <-.
  cbv zeta in Hget. now rewrite Hget.
Qed.

(** When an HTTP response comes back, its status plays no part: the fetch
    returns the decoded body, and raises [JSONDecodeError] when the body
    does not decode. *)
Lemma fetch_ignores_http_status st token st0 status body w :
  _get_access_token subprocess_run time_time false st = (Ok token, st0) ->
  subprocess_run (get_argv token (_build_url self None)) (world st0)
  = (Completed (Curl.completed (get_argv token (_build_url self None))
                               (Curl.Response status body)), w) ->
  fst (get_current_config subprocess_run time_time json_loads self st)
  = match json_loads body with
    | Some doc => Ok doc
    | None => Raise JSONDecodeError
    end.
Proof.
  intros Htok Hsub.
  destruct (fetch_after_token _ subprocess_run time_time json_loads self
              st token st0 Htok) as (w' & outcome & Hsub' & Hget).
  rewrite Hsub in Hsub'. injection Hsub' as <- <-.
  cbv zeta in Hget. rewrite Hget. reflexivity.
Qed.
End PipelineClaims.

Lemma fetch_failure_never_patches_witness :
  update_env_vars scripted_run fixed_time fixed_temp example_loads
                  example_engine trace_enabled (initial unreachable_world)
  = (Raise (CalledProcessError 7 EmptyString),
     snd (get_current_config scripted_run fixed_time example_loads
                             example_engine (initial unreachable_world)))
  /\ exists evs,
       made (initial unreachable_world)
            (snd (get_current_config scripted_run fixed_time example_loads
                                     example_engine (initial unreachable_world)))
            evs
       /\ no_patch evs.
Proof.
  apply fetch_failure_never_patches. vm_compute. reflexivity.
Defined.

Lemma patch_is_scoped_to_env_witness :
  (exists ev,
      In ev (trace (snd (update_env_vars scripted_run fixed_time fixed_temp
                           example_loads example_engine
                           [mkEnvVar "LOG_LEVEL" "debug"]
                           (initial healthy_world))))
      /\ is_patch ev = true)
  /\ exists evs,
       made (initial healthy_world)
            (snd (update_env_vars scripted_run fixed_time fixed_temp
                    example_loads example_engine
                    [mkEnvVar "LOG_LEVEL" "debug"] (initial healthy_world)))
            evs /\
       forall ev, In ev evs -> is_patch ev = true ->
         exists token body_file current merged st0,
           get_current_config scripted_run fixed_time example_loads
                              example_engine (initial healthy_world)
           = (Ok current, st0) /\
           _merge_env_vars current [mkEnvVar "LOG_LEVEL" "debug"] = Ok merged /\
           ev = Exec ["curl"; "-s"; "-X"; "PATCH";
                      "-H"; "Authorization: Bearer " ++ token;
                      "-H"; "Content-Type: application/json";
                      "-d"; "@" ++ body_file;
                      _build_url example_engine None
                      ++ "?updateMask=spec.deploymentSpec.env"] /\
           In (TempWrite body_file
                 (JObj [("spec",
                         JObj [("deploymentSpec",
                                JObj [("env", JArr merged)])])]))
              evs.
Proof.
  split.
  - eexists. split; [vm_compute; right; right; right; left; reflexivity |].
    reflexivity.
  - apply (patch_is_scoped_to_env _ scripted_run fixed_time fixed_temp
             example_loads example_engine [mkEnvVar "LOG_LEVEL" "debug"]
             (initial healthy_world)
             (fst (update_env_vars scripted_run fixed_time fixed_temp
                     example_loads example_engine
                     [mkEnvVar "LOG_LEVEL" "debug"] (initial healthy_world)))).
    vm_compute. reflexivity.
Defined.

(** C5, at the failing inputs.  An HTTP 503 answer to the GET is not a
    failure of the fetch: the error body is returned as the current
    configuration, the update goes on, and the PATCH carries the new
    variable alone.  An HTTP 403 answer to the PATCH is not a failure of the
    update either: the error body is returned as the updated resource. *)
Theorem http_failure_reported_as_success :
  Curl.http_failure (Curl.Response 503 body_unavailable) = true /\
  fst (get_current_config scripted_run fixed_time example_loads
                          example_engine (initial unavailable_world))
  = Ok doc_unavailable /\
  fst (update_env_vars scripted_run fixed_time fixed_temp example_loads
                       example_engine trace_enabled (initial unavailable_world))
  = Ok (JObj []) /\
  In (TempWrite "/tmp/tmpk3v9.json"
        (patch_body_of (map env_json trace_enabled)))
     (trace (snd (update_env_vars scripted_run fixed_time fixed_temp
                    example_loads example_engine trace_enabled
                    (initial unavailable_world)))) /\
  Curl.http_failure (Curl.Response 403 body_denied) = true /\
  fst (update_env_vars scripted_run fixed_time fixed_temp example_loads
                       example_engine trace_enabled (initial denied_world))
  = Ok doc_denied.
Proof.
  repeat split; try (vm_compute; reflexivity).
  vm_compute. right. right. left. reflexivity.
Qed.


(** * Further properties of the merge *)

Lemma comprehension_step_entry_ok d var :
  (exists d1, comprehension_step (Ok d) var = Ok d1) <-> entry_ok var = true.
Proof.
  unfold comprehension_step, entry_ok. cbn.
  destruct (py_getitem "name" var) as [n|]; cbn;
    [|split; [intros [? ?] |]; discriminate].
  destruct (py_getitem "value" var) as [v|]; cbn;
    [|split; [intros [? ?] |]; discriminate].
  destruct (key_of_json n) as [k|]; cbn.
  - split; [reflexivity | eauto].
  - split; [intros [? ?] |]; discriminate.
Qed.

Lemma comprehension_succeeds vars d :
  (exists d1, fold_left comprehension_step vars (Ok d) = Ok d1)
  <-> forallb entry_ok vars = true.
Proof.
  revert d. induction vars as [|var vars IH]; intros d; cbn [fold_left forallb].
  - split; [reflexivity | eauto].
  - rewrite andb_true_iff.
    destruct (comprehension_step (Ok d) var) as [d1|e] eqn:E.
    + rewrite IH. split.
      * intros H. split; [|assumption].
        apply (comprehension_step_entry_ok d var). eauto.
      * tauto.
    + rewrite comprehension_raise. split.
      * intros [? ?]. discriminate.
      * intros [H _]. apply (comprehension_step_entry_ok d var) in H as [d1 H].
        congruence.
Qed.

(** X1: the merge succeeds exactly when the env list can be reached and
    iterated and each of its entries is an object with a hashable name and
    a value; the new variables play no part in that. *)
Theorem merge_succeeds_iff cfg N :
  (exists out, _merge_env_vars cfg N = Ok out) <->
  (exists env vars,
      current_env_of cfg = Ok env /\
      py_iter env = Ok vars /\
      forallb entry_ok vars = true).
Proof.
  unfold _merge_env_vars. split.
  - intros [out H].
    destruct (current_env_of cfg) as [env|]; cbn in H; [|discriminate].
    destruct (py_iter env) as [vars|] eqn:Hiter; cbn in H; [|discriminate].
    destruct (dict_comprehension vars) as [d|] eqn:Hd; cbn in H; [|discriminate].
    exists env, vars. split; [reflexivity|]. split; [assumption|].
    apply (comprehension_succeeds vars []). now exists d.
  - intros (env & vars & Henv & Hiter & Hok).
    apply (comprehension_succeeds vars []) in Hok as [d Hd].
    assert (Hd' : dict_comprehension vars = Ok d) by exact Hd.
    rewrite Henv. cbn [rbind]. rewrite Hiter. cbn [rbind].
    rewrite Hd'. cbn [rbind]. eauto.
Qed.

Lemma key_in_seen n seen (d : env_dict_t) :
  map fst d = map KStr seen ->
  key_in key_eqb (KStr n) d = existsb (String.eqb n) seen.
Proof.
  unfold key_in. revert seen.
  induction d as [|[k v] d IH]; intros [|m seen]; cbn [map existsb fst];
    try discriminate; [reflexivity|].
  intros [= -> Hk]. cbn [key_eqb]. f_equal. exact (IH seen Hk).
Qed.

Lemma keys_update_items L seen (d : env_dict_t) :
  map fst d = map KStr seen ->
  map fst (dict_update key_eqb (map env_item L) d)
  = map KStr
      (fold_left
         (fun seen n =>
            if existsb (String.eqb n) seen then seen else (seen ++ [n])%list)
         (map name L) seen).
Proof.
  revert seen d. induction L as [|e L IH]; intros seen d Hd; cbn; [assumption|].
  apply IH. pose proof (key_in_seen (name e) seen d Hd) as Hin.
  destruct (existsb (String.eqb (name e)) seen).
  - now rewrite keys_setitem_present.
  - rewrite setitem_absent by assumption.
    now rewrite !map_app, Hd.
Qed.

Lemma map_KStr_inj l1 l2 : map KStr l1 = map KStr l2 -> l1 = l2.
Proof.
  revert l2. induction l1 as [|a l1 IH]; intros [|b l2]; cbn;
    try discriminate; [reflexivity|].
  intros [= -> H]. now rewrite (IH l2 H).
Qed.

Lemma length_setitem (k : pykey) (v : json) (d : env_dict_t) :
  (length (dict_setitem key_eqb k v d) <= S (length d))%nat.
Proof.
  induction d as [|[k' v'] d IH]; cbn; [apply le_n|].
  destruct (key_eqb k k'); cbn; [apply le_S, le_n | now apply le_n_S].
Qed.

Lemma length_update kvs (d : env_dict_t) :
  (length (dict_update key_eqb kvs d) <= length d + length kvs)%nat.
Proof.
  revert d. induction kvs as [|[k v] kvs IH]; intros d; cbn.
  - rewrite Nat.add_0_r. apply le_n.
  - eapply Nat.le_trans; [apply IH|].
    rewrite <- Nat.add_succ_comm. apply Nat.add_le_mono_r, length_setitem.
Qed.

(** X2: over an env list of name/value entries the merged list is again a
    list of name/value entries; its names are pairwise distinct, and it
    binds a name to a value exactly when that is the value of the last new
    variable of that name or, no new variable having the name, of the last
    existing entry of that name.  So no name of either list is lost and no
    binding is invented. *)
Theorem merge_bindings cfg E N :
  current_env_of cfg = Ok (JArr (map env_json E)) ->
  exists M,
    _merge_env_vars cfg N = Ok (map env_json M) /\
    NoDup (map name M) /\
    forall n v,
      In (mkEnvVar n v) M <->
      match last_value n N with
      | Some w => w = v
      | None => last_value n E = Some v
      end.
Proof.
  intros Hcfg. rewrite (merge_typed cfg E N Hcfg).
  destruct (update_typed (E ++ N) []) as (M & HM). cbn [map] in HM.
  assert (Hwf : dict_wf key_eqb (dict_update key_eqb (map env_item (E ++ N)) [])
                = true) by (apply wf_update; try key_laws; reflexivity).
  assert (Hout : map entry (dict_update key_eqb (map env_item (E ++ N)) [])
                 = map env_json M) by (now rewrite HM, map_map).
  exists M. rewrite Hout. split; [reflexivity|]. split.
  - apply wf_items_NoDup. now rewrite <- HM.
  - intros n v. split.
    + intros Hin. apply (in_map env_json) in Hin. rewrite <- Hout in Hin.
      apply (In_merged_iff _ n (JStr v)) in Hin. rewrite get_merged in Hin.
      destruct (last_value n N); [congruence|].
      destruct (last_value n E); cbn in Hin; congruence.
    + intros Hv.
      assert (Hg : dict_get key_eqb (KStr n)
                     (dict_update key_eqb (map env_item (E ++ N)) [])
                   = Some (JStr v)).
      { rewrite get_merged. destruct (last_value n N); [now subst|].
        now rewrite Hv. }
      apply (In_merged_iff _ n (JStr v)) in Hg. rewrite Hout in Hg.
      apply in_map_iff in Hg as (e & He & Hin).
      apply (env_json_inj e (mkEnvVar n v)) in He. now subst e.
Qed.

Lemma merge_bindings_witness :
  exists M,
    _merge_env_vars (config_with_env twice_log_level) trace_enabled
    = Ok (map env_json M) /\
    NoDup (map name M) /\
    forall n v,
      In (mkEnvVar n v) M <->
      match last_value n trace_enabled with
      | Some w => w = v
      | None => last_value n twice_log_level = Some v
      end.
Proof.
  apply (merge_bindings (config_with_env twice_log_level)). reflexivity.
Defined.

(** X3: the merged list is in dictionary order: the names of the existing
    entries in the order of their first appearance, then the names that
    only the new variables bring, in the order of their first appearance;
    overriding a value does not move its entry.  The list is no longer than
    the two lists together. *)
Theorem merge_order cfg E N :
  current_env_of cfg = Ok (JArr (map env_json E)) ->
  exists M,
    _merge_env_vars cfg N = Ok (map env_json M) /\
    map name M = first_names (map name (E ++ N)%list) /\
    (length M <= length E + length N)%nat.
Proof.
  intros Hcfg. rewrite (merge_typed cfg E N Hcfg).
  destruct (update_typed (E ++ N) []) as (M & HM). cbn [map] in HM.
  exists M. split; [now rewrite HM, map_map|]. split.
  - apply map_KStr_inj. unfold first_names.
    rewrite <- (keys_update_items (E ++ N) [] []) by reflexivity.
    rewrite HM, !map_map. reflexivity.
  - pose proof (length_update (map env_item (E ++ N)) []) as Hl.
    rewrite HM, !length_map, length_app in Hl. exact Hl.
Qed.

Lemma merge_order_witness :
  exists M,
    _merge_env_vars (config_with_env log_debug_and_trace)
                    (trace_enabled ++ twice_log_level)%list
    = Ok (map env_json M) /\
    map name M
    = first_names (map name (log_debug_and_trace
                             ++ (trace_enabled ++ twice_log_level))%list) /\
    (length M <= length log_debug_and_trace
                 + length (trace_enabled ++ twice_log_level)%list)%nat.
Proof.
  apply (merge_order (config_with_env log_debug_and_trace)). reflexivity.
Defined.

(** X4: merging in two rounds is merging once with the two lists of new
    variables one after the other. *)
Theorem merge_composes cfg cfg1 N1 N2 out1 :
  _merge_env_vars cfg N1 = Ok out1 ->
  current_env_of cfg1 = Ok (JArr out1) ->
  _merge_env_vars cfg1 N2 = _merge_env_vars cfg (N1 ++ N2)%list.
Proof.
  unfold _merge_env_vars. intros H H1.
  destruct (current_env_of cfg) as [env|]; cbn in H |- *; [|discriminate].
  destruct (py_iter env) as [vars|]; cbn in H |- *; [|discriminate].
  destruct (dict_comprehension vars) as [d0|] eqn:Hd; cbn in H |- *; [|discriminate].
  injection H as <-.
  assert (Hwf0 : dict_wf key_eqb d0 = true)
    by (apply (comprehension_wf vars [] d0 Hd); reflexivity).
  rewrite H1. cbn. unfold dict_comprehension.
  rewrite comprehension_entries. cbn.
  rewrite !overlay_update.
  assert (Hwf : dict_wf key_eqb (dict_update key_eqb (map env_item N1) d0) = true)
    by (apply wf_update; try key_laws; assumption).
  rewrite (update_fresh _ _ key_eqb key_eqb_sym _ []) by exact Hwf.
  cbn [app]. rewrite map_app. unfold dict_update. now rewrite fold_left_app.
Qed.

Lemma merge_composes_witness :
  _merge_env_vars (config_with_env log_debug_and_trace) twice_log_level
  = _merge_env_vars (config_with_env log_info)
                    (log_debug_and_trace ++ twice_log_level)%list.
Proof.
  apply (merge_composes (config_with_env log_info)
                        (config_with_env log_debug_and_trace)
                        log_debug_and_trace twice_log_level
                        (map env_json log_debug_and_trace)).
  - reflexivity.
  - reflexivity.
Defined.


(** * Further properties of the command line and of the URL *)

Lemma partition_eq_render key value :
  str_contains "=" key = false ->
  partition_eq (key ++ "=" ++ value) = Some (key, value).
Proof.
  induction key as [|c key IH]; [reflexivity|].
  rewrite str_contains_eq_cons. intros H.
  apply orb_false_iff in H as [Hc Hk].
  change (String c key ++ "=" ++ value) with (String c (key ++ "=" ++ value)).
  cbn [partition_eq]. now rewrite Hc, (IH Hk).
Qed.

Lemma str_contains_render key value :
  str_contains "=" (key ++ "=" ++ value) = true.
Proof.
  induction key as [|c key IH].
  - change ("" ++ "=" ++ value) with (String "="%char value).
    now rewrite str_contains_eq_cons.
  - change (String c key ++ "=" ++ value) with (String c (key ++ "=" ++ value)).
    rewrite str_contains_eq_cons, IH. apply orb_true_r.
Qed.

Lemma parse_env_vars_rendered evs acc :
  (forall e, In e evs -> str_contains "=" (name e) = false) ->
  parse_env_vars (map render evs) acc = Ok (acc ++ evs)%list.
Proof.
  revert acc. induction evs as [|e evs IH]; intros acc H; cbn [map parse_env_vars].
  - now rewrite app_nil_r.
  - unfold render at 1 2. rewrite str_contains_render. cbn [negb].
    unfold split_eq_1. rewrite partition_eq_render by (apply H; now left).
    rewrite IH by (intros e' He'; apply H; now right).
    rewrite <- app_assoc. now destruct e.
Qed.

Lemma parse_env_vars_Ok vars acc out :
  parse_env_vars vars acc = Ok out ->
  exists evs,
    out = (acc ++ evs)%list /\
    map render evs = vars /\
    forall e, In e evs -> str_contains "=" (name e) = false.
Proof.
  revert acc. induction vars as [|var vars IH]; intros acc; cbn [parse_env_vars].
  - intros [= <-]. exists []. rewrite app_nil_r. repeat split. intros e [].
  - destruct (str_contains "=" var) eqn:Hc; cbn [negb]; [|discriminate].
    destruct (partition_eq_Some var Hc) as (key & value & Hp & Hv & Hk).
    unfold split_eq_1. rewrite Hp. intros H.
    destruct (IH _ H) as (evs & -> & Hr & Hn).
    exists (mkEnvVar key value :: evs). rewrite <- app_assoc. repeat split.
    + cbn [map]. now rewrite Hr, Hv.
    + intros e [<- | He]; [assumption | now apply Hn].
Qed.

(** X5: the loop of [main] over the [KEY=VALUE] arguments returns a list of
    variables exactly when the arguments are, one by one and in order, the
    spellings [name=value] of those variables and no name contains an
    ['=']. *)
Theorem parse_env_vars_round_trip vars evs :
  parse_env_vars vars [] = Ok evs <->
  map render evs = vars /\
  forall e, In e evs -> str_contains "=" (name e) = false.
Proof.
  split.
  - intros H. destruct (parse_env_vars_Ok vars [] evs H) as (evs' & -> & Hr & Hn).
    auto.
  - intros [<- Hn]. now rewrite parse_env_vars_rendered.
Qed.

(** X6: the loop ends in one of two ways only: with the variables, or with
    [sys.exit(1)]; it exits exactly when some argument has no ['=']. *)
Theorem parse_env_vars_exits_iff vars :
  (parse_env_vars vars [] = Raise (SystemExit 1) <->
   exists var, In var vars /\ str_contains "=" var = false)
  /\ (parse_env_vars vars [] = Raise (SystemExit 1)
      \/ exists evs, parse_env_vars vars [] = Ok evs).
Proof.
  assert (Hall : forall acc,
             forallb (str_contains "=") vars = true ->
             exists evs, parse_env_vars vars acc = Ok evs).
  { induction vars as [|var vars IH]; intros acc; cbn [forallb parse_env_vars].
    - eauto.
    - intros H. apply andb_true_iff in H as [Hc Hrest]. rewrite Hc. cbn [negb].
      destruct (partition_eq_Some var Hc) as (key & value & Hp & _ & _).
      unfold split_eq_1. rewrite Hp. now apply IH. }
  destruct (forallb (str_contains "=") vars) eqn:Hf.
  - destruct (Hall [] eq_refl) as [evs Hevs]. split; [|eauto]. split.
    + rewrite Hevs. discriminate.
    + intros (var & Hin & Hbad).
      rewrite forallb_forall in Hf. rewrite (Hf var Hin) in Hbad. discriminate.
  - assert (Hbad : exists var, In var vars /\ str_contains "=" var = false).
    { clear Hall. induction vars as [|var vars IH]; [discriminate|].
      cbn [forallb] in Hf. apply andb_false_iff in Hf as [Hc | Hrest].
      - exists var. split; [now left | assumption].
      - destruct (IH Hrest) as (bad & Hin & Hb). exists bad. split; [now right | assumption]. }
    pose proof (parse_env_vars_malformed vars [] Hbad) as Hexit.
    split; [|now left]. split; auto.
Qed.

Lemma hex_digit_safe k : always_safe (hex_digit k) = true.
Proof. do 16 (destruct k as [|k]; [reflexivity|]). now destruct k. Qed.

Lemma quote_plus_chars s :
  forallb quoted_char (list_ascii_of_string (quote_plus s)) = true.
Proof.
  induction s as [|c s IH]; [reflexivity|].
  cbn [quote_plus]. destruct (always_safe c) eqn:Hs.
  - cbn [list_ascii_of_string forallb]. rewrite IH. unfold quoted_char.
    now rewrite Hs.
  - destruct (Ascii.eqb c " ").
    + cbn [list_ascii_of_string forallb]. now rewrite IH.
    + cbn [list_ascii_of_string forallb]. rewrite IH. unfold quoted_char.
      now rewrite !hex_digit_safe.
Qed.

Lemma quote_plus_safe_id s :
  forallb always_safe (list_ascii_of_string s) = true -> quote_plus s = s.
Proof.
  induction s as [|c s IH]; [reflexivity|].
  cbn [list_ascii_of_string forallb quote_plus]. intros H.
  apply andb_true_iff in H as [Hc Hs]. now rewrite Hc, (IH Hs).
Qed.

(** X7: [quote_plus] leaves a text of letters, digits and [_.-~] as it is,
    and whatever the text, its result is made of those characters, ['+']
    and ['%'] only: none of ['&'], ['='], ['?'], ['#'] or a space, which
    would end or split a query parameter. *)
Theorem quote_plus_output s :
  (forallb always_safe (list_ascii_of_string s) = true -> quote_plus s = s) /\
  forall c, In c (list_ascii_of_string (quote_plus s)) ->
    quoted_char c = true /\
    c <> "&"%char /\ c <> "="%char /\ c <> "?"%char /\ c <> "#"%char
    /\ c <> " "%char.
Proof.
  split; [apply quote_plus_safe_id|].
  intros c Hin. pose proof (quote_plus_chars s) as H.
  rewrite forallb_forall in H. specialize (H c Hin).
  split; [assumption|].
  repeat split; intros ->; discriminate.
Qed.

Lemma count_char_app c s1 s2 :
  count_char c (s1 ++ s2) = (count_char c s1 + count_char c s2)%nat.
Proof.
  induction s1 as [|a s1 IH]; [reflexivity|].
  cbn [append count_char]. rewrite IH. apply Nat.add_assoc.
Qed.

Lemma count_char_quote_plus c s :
  quoted_char c = false -> count_char c (quote_plus s) = 0%nat.
Proof.
  intros Hc. pose proof (quote_plus_chars s) as H.
  induction (quote_plus s) as [|a t IH]; [reflexivity|].
  cbn [list_ascii_of_string forallb] in H. apply andb_true_iff in H as [Ha Ht].
  cbn [count_char]. rewrite (IH Ht).
  destruct (Ascii.eqb a c) eqn:E; [|reflexivity].
  apply Ascii.eqb_eq in E. subst a. congruence.
Qed.

Lemma count_char_urlencode c q :
  quoted_char c = false ->
  count_char c (urlencode q)
  = (length q * count_char c "=" + pred (length q) * count_char c "&")%nat.
Proof.
  intros Hc. unfold urlencode.
  induction q as [|kv q IH]; [reflexivity|].
  cbn [map String.concat length pred].
  destruct q as [|kv1 q].
  - cbn [map length Nat.mul]. rewrite !count_char_app, !count_char_quote_plus by assumption.
    cbn [Nat.add]. now rewrite !Nat.add_0_r.
  - cbn [map] in IH |- *. rewrite !count_char_app.
    cbn [map] in IH. rewrite IH.
    rewrite !count_char_quote_plus by assumption.
    cbn [length pred Nat.mul Nat.add]. lia.
Qed.

(** X8: with a non-empty query the URL is the resource URL, a ['?'] and
    the encoded query; in the encoded query there is one ['='] for each
    parameter, an ['&'] between two parameters only, and no ['?'], ['#'] or
    space, whatever the keys and values contain.  Without a query, or with
    an empty one, the URL is the resource URL. *)
Theorem build_url_query (self : configurator) (q : list (string * string)) :
  q <> [] ->
  _build_url self (Some q)
  = _build_url self None ++ "?" ++ urlencode q /\
  _build_url self (Some []) = _build_url self None /\
  count_char "=" (urlencode q) = length q /\
  count_char "&" (urlencode q) = pred (length q) /\
  count_char "?" (urlencode q) = 0%nat /\
  count_char "#" (urlencode q) = 0%nat /\
  count_char " " (urlencode q) = 0%nat.
Proof.
  intros Hq. split; [|split; [reflexivity|]].
  - destruct q; [contradiction | reflexivity].
  - repeat split; rewrite count_char_urlencode by reflexivity;
      cbn [count_char Ascii.eqb Bool.eqb]; cbn;
      rewrite ?Nat.mul_0_r, ?Nat.mul_1_r, ?Nat.add_0_r; reflexivity.
Qed.

Lemma build_url_query_witness :
  _build_url example_engine (Some [("updateMask", "a b&c=d"); ("x?", "#")])
  = _build_url example_engine None
    ++ "?" ++ urlencode [("updateMask", "a b&c=d"); ("x?", "#")] /\
  _build_url example_engine (Some []) = _build_url example_engine None /\
  count_char "=" (urlencode [("updateMask", "a b&c=d"); ("x?", "#")]) = 2%nat /\
  count_char "&" (urlencode [("updateMask", "a b&c=d"); ("x?", "#")]) = 1%nat /\
  count_char "?" (urlencode [("updateMask", "a b&c=d"); ("x?", "#")]) = 0%nat /\
  count_char "#" (urlencode [("updateMask", "a b&c=d"); ("x?", "#")]) = 0%nat /\
  count_char " " (urlencode [("updateMask", "a b&c=d"); ("x?", "#")]) = 0%nat.
Proof.
  apply (build_url_query example_engine
           [("updateMask", "a b&c=d"); ("x?", "#")]).
  discriminate.
Defined.


(** * Further properties of the configurator *)

Section ConfiguratorFacts.
Variable W : Type.
Variable subprocess_run : list string -> W -> run_outcome * W.
Variable time_time : W -> Z * W.
Variable mkstemp : W -> string * W.
Variable json_loads : string -> option json.
Variable self : configurator.

Local Open Scope list_scope.
Implicit Types st : state W.

Lemma run_nocheck argv st :
  exists w outcome,
    subprocess_run argv (world st) = (outcome, w) /\
    run subprocess_run false argv st =
    (match outcome with
     | NotFound => Raise FileNotFoundError
     | Completed cp => Ok cp
     end,
     mkState w (trace st ++ [Exec argv])
             (_access_token st) (_token_refreshed_at st)).
Proof.
  unfold run. destruct (subprocess_run argv (world st)) as [outcome w].
  exists w, outcome. split; [reflexivity|]. now destruct outcome.
Qed.

(** The two ways of [_get_access_token]: the cache, or [gcloud]. *)
Lemma token_anatomy force st :
  exists t w,
    time_time (world st) = (t, w) /\
    if negb force && truthy (_access_token st)
       && (t - _token_refreshed_at st <? 3000)%Z
    then
      _get_access_token subprocess_run time_time force st
      = (Ok (token_text (_access_token st)),
         mkState w (trace st) (_access_token st) (_token_refreshed_at st))
    else
      exists outcome w1,
        subprocess_run gcloud_token_argv w = (outcome, w1) /\
        _get_access_token subprocess_run time_time force st
        = match outcome with
          | NotFound =>
              (Raise FileNotFoundError,
               mkState w1 (trace st ++ [Exec gcloud_token_argv])
                       (_access_token st) (_token_refreshed_at st))
          | Completed cp =>
              if (returncode cp =? 0)%Z
              then (Ok (str_strip (stdout cp)),
                    mkState w1 (trace st ++ [Exec gcloud_token_argv])
                            (Some (str_strip (stdout cp))) t)
              else (Raise (CalledProcessError (returncode cp) (stderr cp)),
                    mkState w1 (trace st ++ [Exec gcloud_token_argv])
                            (_access_token st) (_token_refreshed_at st))
          end.
Proof.
  unfold _get_access_token, bind, now, get_state.
  destruct (time_time (world st)) as [t w]. exists t, w.
  split; [reflexivity|]. cbn.
  destruct (negb force && truthy (_access_token st)
            && (t - _token_refreshed_at st <? 3000)%Z); [reflexivity|].
  unfold try_except, bind, run, gcloud_token_argv. cbn.
  destruct (subprocess_run ["gcloud"; "auth"; "print-access-token"] w)
    as [outcome w1].
  exists outcome, w1. split; [reflexivity|].
  destruct outcome as [cp|]; [|reflexivity].
  now destruct (returncode cp =? 0)%Z.
Qed.

(** X9: a token that a call returned is served from the cache by the next
    call, as long as it is not empty, no refresh is forced and less than
    3000 seconds have passed since it was obtained; that call starts
    nothing. *)
Theorem token_reused_within_3000s force st token st1 t1 w1 :
  _get_access_token subprocess_run time_time force st = (Ok token, st1) ->
  token <> EmptyString ->
  time_time (world st1) = (t1, w1) ->
  (t1 - _token_refreshed_at st1 < 3000)%Z ->
  _get_access_token subprocess_run time_time false st1
  = (Ok token,
     mkState w1 (trace st1) (Some token) (_token_refreshed_at st1)).
Proof.
  intros Hfirst Hne Htime Hage.
  assert (Hcache : _access_token st1 = Some token).
  { destruct (token_anatomy force st) as (t & w & _ & H).
    destruct (negb force && truthy (_access_token st)
              && (t - _token_refreshed_at st <? 3000)%Z) eqn:Hc.
    - rewrite H in Hfirst. injection Hfirst as <- <-. cbn.
      apply andb_true_iff in Hc as [Hc _]. apply andb_true_iff in Hc as [_ Hc].
      destruct (_access_token st) as [[|c tk]|]; try discriminate. reflexivity.
    - destruct H as (outcome & w0 & _ & H). rewrite H in Hfirst.
      destruct outcome as [cp|]; [|discriminate].
      destruct (returncode cp =? 0)%Z; [|discriminate].
      now injection Hfirst as <- <-. }
  destruct (token_anatomy false st1) as (t & w & Ht & H).
  rewrite Htime in Ht. injection Ht as <- <-.
  rewrite Hcache in H. cbn [negb andb] in H.
  assert (Htruthy : truthy (Some token) = true)
    by (destruct token; [contradiction | reflexivity]).
  rewrite Htruthy in H. apply Z.ltb_lt in Hage. rewrite Hage in H.
  rewrite H. reflexivity.
Qed.


Lemma token_made force st r st1 :
  _get_access_token subprocess_run time_time force st = (r, st1) ->
  exists T, token_events T /\ made st st1 T.
Proof.
  intros Hcall. destruct (token_anatomy force st) as (t & w & _ & H).
  destruct (negb force && truthy (_access_token st)
            && (t - _token_refreshed_at st <? 3000)%Z).
  - rewrite H in Hcall. injection Hcall as _ <-. exists []. split; [now left|].
    unfold made. cbn. now rewrite app_nil_r.
  - destruct H as (outcome & w1 & _ & H). rewrite H in Hcall.
    exists [Exec gcloud_token_argv]. split; [now right|].
    destruct outcome as [cp|]; [destruct (returncode cp =? 0)%Z|];
      injection Hcall as _ <-; reflexivity.
Qed.

Lemma fetch_made st r st1 :
  get_current_config subprocess_run time_time json_loads self st = (r, st1) ->
  exists T1,
    token_events T1 /\
    ((is_ok r = false /\ made st st1 T1) \/
     exists token,
       made st st1 (T1 ++ [Exec (get_argv token (_build_url self None))])).
Proof.
  intros Hget.
  destruct (_get_access_token subprocess_run time_time false st)
    as [[token|e] st0] eqn:Htok.
  - destruct (token_made _ _ _ _ Htok) as (T1 & HT1 & Hm1).
    destruct (fetch_after_token _ subprocess_run time_time json_loads self
                st token st0 Htok) as (w & outcome & _ & H).
    cbv zeta in H. rewrite H in Hget. injection Hget as _ <-.
    exists T1. split; [assumption|]. right. exists token.
    unfold made in *. cbn [trace]. now rewrite Hm1, app_assoc.
  - unfold get_current_config in Hget.
    rewrite (bind_raise _ _ _ _ _ _ Htok) in Hget. injection Hget as <- <-.
    destruct (token_made _ _ _ _ Htok) as (T1 & HT1 & Hm1).
    exists T1. split; [assumption|]. left. now split.
Qed.

(** Once the document is fetched and merged and the token is at hand, the
    update writes the body, starts the PATCH and ends by what comes back. *)
Lemma update_after_token new_vars st current st0 merged token st2 :
  get_current_config subprocess_run time_time json_loads self st
  = (Ok current, st0) ->
  _merge_env_vars current new_vars = Ok merged ->
  _get_access_token subprocess_run time_time false st0 = (Ok token, st2) ->
  exists path w2 outcome w3,
    mkstemp (world st2) = (path, w2) /\
    subprocess_run
      (patch_argv token path (_build_url self (Some [("updateMask", ENV_PATH)])))
      w2 = (outcome, w3) /\
    let after tail :=
      mkState w3
        (trace st2
         ++ [TempWrite path (patch_body_of merged);
             Exec (patch_argv token path
                     (_build_url self (Some [("updateMask", ENV_PATH)])))]
         ++ tail)
        (_access_token st2) (_token_refreshed_at st2) in
    update_env_vars subprocess_run time_time mkstemp json_loads self new_vars st
    = match outcome with
      | NotFound => (Raise FileNotFoundError, after [])
      | Completed cp =>
          if (returncode cp =? 0)%Z then
            match json_loads (stdout cp) with
            | Some doc => (Ok doc, after [Unlink path])
            | None => (Raise JSONDecodeError, after [])
            end
          else (Raise (CalledProcessError (returncode cp) (stderr cp)), after [])
      end.
Proof.
  intros Hget Hmerge Htok. unfold update_env_vars.
  rewrite (bind_ok _ _ _ _ _ _ Hget). unfold bind at 1. unfold lift.
  rewrite Hmerge. cbv zeta. rewrite (bind_ok _ _ _ _ _ _ Htok).
  unfold try_except, bind, temp_write, run.
  destruct (mkstemp (world st2)) as [path w2]. cbn [world trace].
  exists path, w2.
  destruct (subprocess_run
              (patch_argv token path
                 (_build_url self (Some [("updateMask", ENV_PATH)]))) w2)
    as [outcome w3].
  exists outcome, w3. split; [reflexivity|]. split; [reflexivity|].
  cbv zeta. cbn [_access_token _token_refreshed_at andb].
  destruct outcome as [cp|].
  - destruct (returncode cp =? 0)%Z; cbn [negb].
    + unfold loads. destruct (json_loads (stdout cp)) as [doc|].
      * unfold ret, emit. cbn [trace world _access_token _token_refreshed_at].
        now rewrite <- !app_assoc.
      * unfold raise, dispatch. cbn [is_CalledProcessError is_JSONDecodeError].
        now rewrite <- !app_assoc, app_nil_r.
    + unfold dispatch, raise. cbn [is_CalledProcessError].
      now rewrite <- !app_assoc, app_nil_r.
  - unfold dispatch, raise. cbn [is_CalledProcessError is_JSONDecodeError].
    now rewrite <- !app_assoc, app_nil_r.
Qed.

Lemma update_shape_holds new_vars st r st1 :
  update_env_vars subprocess_run time_time mkstemp json_loads self new_vars st
  = (r, st1) ->
  exists evs, made st st1 evs /\ update_shape self evs (is_ok r).
Proof.
  intros Hup.
  destruct (get_current_config subprocess_run time_time json_loads self st)
    as [gr st0] eqn:Hget.
  destruct (fetch_made _ _ _ Hget) as (T1 & HT1 & Hfetch).
  destruct gr as [current|e].
  2:{ unfold update_env_vars in Hup.
      rewrite (bind_raise _ _ _ _ _ _ Hget) in Hup. injection Hup as <- <-.
      destruct Hfetch as [[_ Hm] | [token Hm]].
      - exists T1. split; [assumption|]. exists T1. split; [assumption|].
        left. now split.
      - eexists. split; [exact Hm|]. exists T1. split; [assumption|].
        right. exists token. left. now split. }
  destruct Hfetch as [[Hno _] | [token1 Hm0]]; [discriminate|].
  destruct (_merge_env_vars current new_vars) as [merged|e] eqn:Hmerge.
  2:{ unfold update_env_vars in Hup.
      rewrite (bind_ok _ _ _ _ _ _ Hget) in Hup.
      unfold bind at 1 in Hup. unfold lift in Hup. rewrite Hmerge in Hup.
      injection Hup as <- <-.
      eexists. split; [exact Hm0|]. exists T1. split; [assumption|].
      right. exists token1. left. now split. }
  destruct (_get_access_token subprocess_run time_time false st0)
    as [[token2|e] st2] eqn:Htok.
  2:{ unfold update_env_vars in Hup.
      rewrite (bind_ok _ _ _ _ _ _ Hget) in Hup.
      unfold bind at 1 in Hup. unfold lift in Hup. rewrite Hmerge in Hup.
      rewrite (bind_raise _ _ _ _ _ _ Htok) in Hup. injection Hup as <- <-.
      destruct (token_made _ _ _ _ Htok) as (T2 & HT2 & Hm2).
      exists ((T1 ++ [Exec (get_argv token1 (_build_url self None))]) ++ T2).
      split; [now apply made_trans with st0|].
      exists T1. split; [assumption|]. right. exists token1. right.
      exists T2. split; [assumption|]. left. split; [reflexivity|].
      now rewrite <- app_assoc. }
  destruct (token_made _ _ _ _ Htok) as (T2 & HT2 & Hm2).
  destruct (update_after_token new_vars st current st0 merged token2 st2
              Hget Hmerge Htok)
    as (path & w2 & outcome & w3 & _ & _ & H).
  cbv zeta in H. rewrite H in Hup. clear H.
  assert (Hshape : forall tail st3,
             made st2 st3
               ([TempWrite path (patch_body_of merged);
                 Exec (patch_argv token2 path
                         (_build_url self (Some [("updateMask", ENV_PATH)])))]
                ++ tail) ->
             made st st3
               (T1 ++ [Exec (get_argv token1 (_build_url self None))] ++ T2
                ++ [TempWrite path (patch_body_of merged);
                    Exec (patch_argv token2 path
                            (_build_url self (Some [("updateMask", ENV_PATH)])))]
                ++ tail)).
  { intros tail st3 Hm3. unfold made in *. rewrite Hm3, Hm2, Hm0.
    now rewrite <- !app_assoc. }
  assert (Hfail : forall e st3,
             (Raise e, st3) = (r, st1) ->
             made st2 st3
               ([TempWrite path (patch_body_of merged);
                 Exec (patch_argv token2 path
                         (_build_url self (Some [("updateMask", ENV_PATH)])))]
                ++ []) ->
             exists evs, made st st1 evs /\ update_shape self evs (is_ok r)).
  { intros e st3 [= <- <-] Hm3. eexists. split; [exact (Hshape _ _ Hm3)|].
    exists T1. split; [assumption|]. right. exists token1. right.
    exists T2. split; [assumption|]. right.
    exists token2, path, (patch_body_of merged). left. now split. }
  destruct outcome as [cp|].
  - destruct (returncode cp =? 0)%Z.
    + destruct (json_loads (stdout cp)) as [doc|].
      * injection Hup as <- <-. eexists. split.
        -- apply (Hshape [Unlink path]). reflexivity.
        -- exists T1. split; [assumption|]. right. exists token1. right.
           exists T2. split; [assumption|]. right.
           exists token2, path, (patch_body_of merged). right. now split.
      * apply (Hfail _ _ Hup). reflexivity.
    + apply (Hfail _ _ Hup). reflexivity.
  - apply (Hfail _ _ Hup). reflexivity.
Qed.
End ConfiguratorFacts.

Section UpdateProperties.
Variable W : Type.
Variable subprocess_run : list string -> W -> run_outcome * W.
Variable time_time : W -> Z * W.
Variable mkstemp : W -> string * W.
Variable json_loads : string -> option json.
Variable self : configurator.

Local Open Scope list_scope.
Implicit Types st : state W.

(** X11: the requests of one update are, in this order and cut short where
    it fails: the token command if the cache does not serve, the GET, the
    token command again if need be, the writing of the body file, the
    PATCH, and, when the update returns, the removal of the body file. *)
Theorem update_requests_in_order new_vars st r st1 :
  update_env_vars subprocess_run time_time mkstemp json_loads self new_vars st
  = (r, st1) ->
  exists evs, made st st1 evs /\ update_shape self evs (is_ok r).
Proof. apply update_shape_holds. Qed.

Lemma token_events_plain T :
  token_events T ->
  existsb is_unlink T = false /\
  filter is_curl T = [] /\
  filter is_patch T = [] /\
  (length T <= 1)%nat /\
  forall path, ~ In (Unlink path) T.
Proof.
  intros [-> | ->]; cbn; repeat split; auto.
  intros path [H | []]. discriminate.
Qed.

(** X12: the body file is removed exactly when the update returns a
    document; when the update raises after writing it, the file stays.  A
    file that is removed is the body file written before. *)
Theorem body_file_removed_iff_success new_vars st r st1 :
  update_env_vars subprocess_run time_time mkstemp json_loads self new_vars st
  = (r, st1) ->
  exists evs,
    made st st1 evs /\
    existsb is_unlink evs = is_ok r /\
    forall path, In (Unlink path) evs ->
                 exists body, In (TempWrite path body) evs.
Proof.
  intros Hup.
  destruct (update_shape_holds _ _ _ _ _ _ _ _ _ _ Hup) as (evs & Hm & Hs).
  exists evs. split; [assumption|].
  destruct Hs as (T1 & HT1 & Hs).
  destruct (token_events_plain T1 HT1) as (Hu1 & _ & _ & _ & Hn1).
  destruct Hs as [[-> ->] | (token1 & Hs)].
  { split; [assumption|]. intros path Hin. now apply Hn1 in Hin. }
  destruct Hs as [[-> ->] | (T2 & HT2 & Hs)].
  { split.
    - now rewrite existsb_app, Hu1.
    - intros path Hin. apply in_app_or in Hin as [Hin | [Hin | []]];
        [now apply Hn1 in Hin | discriminate]. }
  destruct (token_events_plain T2 HT2) as (Hu2 & _ & _ & _ & Hn2).
  destruct Hs as [[-> ->] | (token2 & path0 & body & [[-> ->] | [-> ->]])].
  - split.
    + now rewrite !existsb_app, Hu1, Hu2.
    + intros path Hin. apply in_app_or in Hin as [Hin | Hin];
        [now apply Hn1 in Hin|].
      apply in_app_or in Hin as [[Hin | []] | Hin];
        [discriminate | now apply Hn2 in Hin].
  - split.
    + now rewrite !existsb_app, Hu1, Hu2.
    + intros path Hin. apply in_app_or in Hin as [Hin | Hin];
        [now apply Hn1 in Hin|].
      apply in_app_or in Hin as [[Hin | []] | Hin]; [discriminate|].
      apply in_app_or in Hin as [Hin | Hin]; [now apply Hn2 in Hin|].
      destruct Hin as [Hin | [Hin | []]]; discriminate.
  - split.
    + rewrite !existsb_app, Hu1, Hu2. reflexivity.
    + intros path Hin. apply in_app_or in Hin as [Hin | Hin];
        [now apply Hn1 in Hin|].
      apply in_app_or in Hin as [[Hin | []] | Hin]; [discriminate|].
      apply in_app_or in Hin as [Hin | Hin]; [now apply Hn2 in Hin|].
      destruct Hin as [Hin | [Hin | [Hin | []]]]; try discriminate.
      injection Hin as <-. exists body.
      apply in_or_app. right. apply in_or_app. right.
      apply in_or_app. right. now left.
Qed.

(** X13: an update is not retried: it starts [curl] at most twice and
    among those at most one PATCH, it makes at most six requests in all,
    and when it returns a document exactly one PATCH was started. *)
Theorem update_is_not_retried new_vars st r st1 :
  update_env_vars subprocess_run time_time mkstemp json_loads self new_vars st
  = (r, st1) ->
  exists evs,
    made st st1 evs /\
    (length (filter is_curl evs) <= 2)%nat /\
    (length (filter is_patch evs) <= 1)%nat /\
    (length evs <= 6)%nat /\
    (is_ok r = true -> length (filter is_patch evs) = 1%nat).
Proof.
  intros Hup.
  destruct (update_shape_holds _ _ _ _ _ _ _ _ _ _ Hup) as (evs & Hm & Hs).
  exists evs. split; [assumption|].
  destruct Hs as (T1 & HT1 & Hs).
  destruct (token_events_plain T1 HT1) as (_ & Hc1 & Hp1 & Hl1 & _).
  destruct Hs as [[-> ->] | (token1 & Hs)].
  { rewrite Hc1, Hp1. cbn. repeat split; intros; try lia; discriminate. }
  destruct Hs as [[-> ->] | (T2 & HT2 & Hs)].
  { rewrite !filter_app, Hc1, Hp1, !length_app. cbn.
    repeat split; intros; try lia; discriminate. }
  destruct (token_events_plain T2 HT2) as (_ & Hc2 & Hp2 & Hl2 & _).
  destruct Hs as [[-> ->] | (token2 & path0 & body & [[-> ->] | [-> ->]])];
    rewrite !filter_app, Hc1, Hp1, Hc2, Hp2, !length_app; cbn;
    repeat split; intros; try lia; discriminate.
Qed.

(** X14: an update without new variables is not skipped: once the
    document is fetched and the token is at hand, the body file holds the
    existing env list as it is (its names being pairwise distinct) and the
    PATCH is started with it. *)
Theorem empty_update_writes_list_back st current st0 E token st2 :
  get_current_config subprocess_run time_time json_loads self st
  = (Ok current, st0) ->
  current_env_of current = Ok (JArr (map env_json E)) ->
  NoDup (map name E) ->
  _get_access_token subprocess_run time_time false st0 = (Ok token, st2) ->
  exists path,
    In (TempWrite path
          (JObj [("spec",
                  JObj [("deploymentSpec",
                         JObj [("env", JArr (map env_json E))])])]))
       (trace (snd (update_env_vars subprocess_run time_time mkstemp json_loads
                      self [] st))) /\
    In (Exec (patch_argv token path
                (_build_url self (Some [("updateMask", ENV_PATH)]))))
       (trace (snd (update_env_vars subprocess_run time_time mkstemp json_loads
                      self [] st))).
Proof.
  intros Hget Hcfg Hnd Htok.
  assert (Hmerge : _merge_env_vars current [] = Ok (map env_json E)).
  { rewrite (merge_typed current E [] Hcfg), app_nil_r.
    rewrite update_fresh; [| key_laws |].
    - cbn [app]. now rewrite map_map.
    - cbn [app]. now apply wf_items_NoDup. }
  destruct (update_after_token _ subprocess_run time_time mkstemp json_loads
              self [] st current st0 (map env_json E) token st2
              Hget Hmerge Htok)
    as (path & w2 & outcome & w3 & _ & _ & H).
  cbv zeta in H. rewrite H. exists path.
  assert (Hin : forall tail ev,
             In ev [TempWrite path (patch_body_of (map env_json E));
                    Exec (patch_argv token path
                            (_build_url self (Some [("updateMask", ENV_PATH)])))] ->
             In ev (trace st2
                    ++ [TempWrite path (patch_body_of (map env_json E));
                        Exec (patch_argv token path
                                (_build_url self (Some [("updateMask", ENV_PATH)])))]
                    ++ tail)).
  { intros tail ev Hev. apply in_or_app. right. apply in_or_app. now left. }
  destruct outcome as [cp|];
    [destruct (returncode cp =? 0)%Z;
     [destruct (json_loads (stdout cp))|]|];
    cbn [snd trace]; (split; apply Hin; [now left | right; now left]).
Qed.

(** X15: what the fetch makes of the answer of [curl], the token being at
    hand: it starts the one GET on the resource URL with the bearer token;
    it raises [FileNotFoundError] when [curl] does not exist,
    [CalledProcessError] when the return code is not 0, [JSONDecodeError]
    when the code is 0 and the output does not decode, and returns the
    decoded output otherwise. *)
Theorem fetch_outcomes st token st0 outcome w :
  _get_access_token subprocess_run time_time false st = (Ok token, st0) ->
  subprocess_run (get_argv token (_build_url self None)) (world st0)
  = (outcome, w) ->
  get_current_config subprocess_run time_time json_loads self st
  = (match outcome with
     | NotFound => Raise FileNotFoundError
     | Completed cp =>
         if (returncode cp =? 0)%Z then
           match json_loads (stdout cp) with
           | Some doc => Ok doc
           | None => Raise JSONDecodeError
           end
         else Raise (CalledProcessError (returncode cp) (stderr cp))
     end,
     mkState w
       (trace st0
        ++ [Exec ["curl"; "-s"; "-X"; "GET";
                  "-H"; ("Authorization: Bearer " ++ token)%string;
                  "-H"; "Content-Type: application/json";
                  _build_url self None]])
       (_access_token st0) (_token_refreshed_at st0)).
Proof.
  intros Htok Hsub.
  destruct (fetch_after_token _ subprocess_run time_time json_loads self
              st token st0 Htok) as (w' & outcome' & Hsub' & H).
  rewrite Hsub in Hsub'. injection Hsub' as <- <-. exact H.
Qed.

(** X16: what the update makes of the answer of [curl] to the PATCH, the
    document being fetched and merged and the token at hand: it raises
    [FileNotFoundError] when [curl] does not exist, [CalledProcessError]
    when the return code is not 0, [JSONDecodeError] when the code is 0 and
    the output does not decode, and returns the decoded output otherwise. *)
Theorem patch_outcomes new_vars st current st0 merged token st2 path w2 outcome w3 :
  get_current_config subprocess_run time_time json_loads self st
  = (Ok current, st0) ->
  _merge_env_vars current new_vars = Ok merged ->
  _get_access_token subprocess_run time_time false st0 = (Ok token, st2) ->
  mkstemp (world st2) = (path, w2) ->
  subprocess_run
    (patch_argv token path (_build_url self (Some [("updateMask", ENV_PATH)])))
    w2 = (outcome, w3) ->
  fst (update_env_vars subprocess_run time_time mkstemp json_loads self
                       new_vars st)
  = match outcome with
    | NotFound => Raise FileNotFoundError
    | Completed cp =>
        if (returncode cp =? 0)%Z then
          match json_loads (stdout cp) with
          | Some doc => Ok doc
          | None => Raise JSONDecodeError
          end
        else Raise (CalledProcessError (returncode cp) (stderr cp))
    end.
Proof.
  intros Hget Hmerge Htok Htmp Hsub.
  destruct (update_after_token _ subprocess_run time_time mkstemp json_loads
              self new_vars st current st0 merged token st2 Hget Hmerge Htok)
    as (path' & w2' & outcome' & w3' & Htmp' & Hsub' & H).
  rewrite Htmp in Htmp'. injection Htmp' as <- <-.
  rewrite Hsub in Hsub'. injection Hsub' as <- <-.
  cbv zeta in H. rewrite H.
  destruct outcome as [cp|]; [|reflexivity].
  destruct (returncode cp =? 0)%Z; [|reflexivity].
  now destruct (json_loads (stdout cp)).
Qed.
End UpdateProperties.

(** * Further properties of the prerequisite checks and of [main] *)

Section MainProperties.
Variable W : Type.
Variable subprocess_run : list string -> W -> run_outcome * W.
Variable time_time : W -> Z * W.
Variable mkstemp : W -> string * W.
Variable json_loads : string -> option json.

Local Open Scope list_scope.
Implicit Types st : state W.

Lemma validate_Ok self st valid errors st1 :
  validate_prerequisites subprocess_run self st = (Ok (valid, errors), st1) ->
  exists c1 w1 c2 w2 c3 w3 c4 w4 c5,
    subprocess_run ["which"; "gcloud"] (world st) = (Completed c1, w1) /\
    subprocess_run ["which"; "curl"] w1 = (Completed c2, w2) /\
    subprocess_run ["gcloud"; "auth"; "list"] w2 = (Completed c3, w3) /\
    subprocess_run ["gcloud"; "projects"; "describe"; project_id self] w3
    = (Completed c4, w4) /\
    subprocess_run
      ["gcloud"; "ai"; "reasoning-engines"; "list";
       ("--project=" ++ project_id self)%string;
       ("--location=" ++ location self)%string;
       "--format=value(id)"] w4
    = (Completed c5, world st1) /\
    made st st1 (prerequisite_commands self) /\
    _access_token st1 = _access_token st /\
    _token_refreshed_at st1 = _token_refreshed_at st /\
    valid = ((returncode c1 =? 0)%Z && (returncode c2 =? 0)%Z
             && str_contains "ACTIVE" (stdout c3)
             && (returncode c4 =? 0)%Z
             && str_contains (engine_id self) (stdout c5)) /\
    (valid = true <-> errors = []) /\
    (length errors <= 5)%nat.
Proof.
  unfold validate_prerequisites, bind, run, ret.
  destruct (subprocess_run ["which"; "gcloud"] (world st)) as [[c1|] w1] eqn:H1;
    cbn [world trace andb _access_token _token_refreshed_at]; [|discriminate].
  destruct (subprocess_run ["which"; "curl"] w1) as [[c2|] w2] eqn:H2;
    cbn [world trace andb _access_token _token_refreshed_at]; [|discriminate].
  destruct (subprocess_run ["gcloud"; "auth"; "list"] w2) as [[c3|] w3] eqn:H3;
    cbn [world trace andb _access_token _token_refreshed_at]; [|discriminate].
  destruct (subprocess_run ["gcloud"; "projects"; "describe"; project_id self] w3)
    as [[c4|] w4] eqn:H4;
    cbn [world trace andb _access_token _token_refreshed_at]; [|discriminate].
  destruct (subprocess_run
              ["gcloud"; "ai"; "reasoning-engines"; "list";
               ("--project=" ++ project_id self)%string;
               ("--location=" ++ location self)%string;
               "--format=value(id)"] w4) as [[c5|] w5] eqn:H5;
    cbn [world trace andb _access_token _token_refreshed_at]; [|discriminate].
  intros [= <- <- <-].
  exists c1, w1, c2, w2, c3, w3, c4, w4, c5.
  do 5 (split; [first [reflexivity | assumption]|]).
  split; [unfold made, prerequisite_commands; cbn [trace];
          now rewrite <- !app_assoc|].
  do 2 (split; [reflexivity|]).
  destruct (returncode c1 =? 0)%Z, (returncode c2 =? 0)%Z,
    (str_contains "ACTIVE" (stdout c3)), (returncode c4 =? 0)%Z,
    (str_contains (engine_id self) (stdout c5));
    cbn [negb andb app length Nat.eqb];
    (split; [reflexivity|]);
    (split; [split; intros; (reflexivity || discriminate) | lia]).
Qed.

Lemma validate_Raise self st e st1 :
  validate_prerequisites subprocess_run self st = (Raise e, st1) ->
  e = FileNotFoundError /\
  exists n, (1 <= n <= 5)%nat /\
            made st st1 (firstn n (prerequisite_commands self)).
Proof.
  unfold validate_prerequisites, bind, run, ret.
  destruct (subprocess_run ["which"; "gcloud"] (world st)) as [[c1|] w1];
    cbn [world trace andb _access_token _token_refreshed_at].
  2:{ intros [= <- <-]. split; [reflexivity|]. exists 1%nat.
      split; [lia | reflexivity]. }
  destruct (subprocess_run ["which"; "curl"] w1) as [[c2|] w2];
    cbn [world trace andb _access_token _token_refreshed_at].
  2:{ intros [= <- <-]. split; [reflexivity|]. exists 2%nat.
      split; [lia|]. unfold made. cbn [trace firstn prerequisite_commands].
      now rewrite <- !app_assoc. }
  destruct (subprocess_run ["gcloud"; "auth"; "list"] w2) as [[c3|] w3];
    cbn [world trace andb _access_token _token_refreshed_at].
  2:{ intros [= <- <-]. split; [reflexivity|]. exists 3%nat.
      split; [lia|]. unfold made. cbn [trace firstn prerequisite_commands].
      now rewrite <- !app_assoc. }
  destruct (subprocess_run ["gcloud"; "projects"; "describe"; project_id self] w3)
    as [[c4|] w4];
    cbn [world trace andb _access_token _token_refreshed_at].
  2:{ intros [= <- <-]. split; [reflexivity|]. exists 4%nat.
      split; [lia|]. unfold made. cbn [trace firstn prerequisite_commands].
      now rewrite <- !app_assoc. }
  destruct (subprocess_run
              ["gcloud"; "ai"; "reasoning-engines"; "list";
               ("--project=" ++ project_id self)%string;
               ("--location=" ++ location self)%string;
               "--format=value(id)"] w4) as [[c5|] w5];
    cbn [world trace andb _access_token _token_refreshed_at]; [discriminate|].
  intros [= <- <-]. split; [reflexivity|]. exists 5%nat.
  split; [lia|]. unfold made. cbn [trace firstn prerequisite_commands].
  now rewrite <- !app_assoc.
Qed.

(** X17: when the prerequisite check returns, it has run its five
    commands, all of them, in order, and nothing else; it reports valid
    exactly when both [which] and the project description returned code 0,
    the authentication list contains [ACTIVE] and the engine list contains
    the engine id; valid goes with the empty list of problems, which never
    has more than five messages. *)
Theorem prerequisites_verdict self st valid errors st1 :
  validate_prerequisites subprocess_run self st = (Ok (valid, errors), st1) ->
  exists c1 w1 c2 w2 c3 w3 c4 w4 c5,
    subprocess_run ["which"; "gcloud"] (world st) = (Completed c1, w1) /\
    subprocess_run ["which"; "curl"] w1 = (Completed c2, w2) /\
    subprocess_run ["gcloud"; "auth"; "list"] w2 = (Completed c3, w3) /\
    subprocess_run ["gcloud"; "projects"; "describe"; project_id self] w3
    = (Completed c4, w4) /\
    subprocess_run
      ["gcloud"; "ai"; "reasoning-engines"; "list";
       ("--project=" ++ project_id self)%string;
       ("--location=" ++ location self)%string;
       "--format=value(id)"] w4
    = (Completed c5, world st1) /\
    made st st1 (prerequisite_commands self) /\
    valid = ((returncode c1 =? 0)%Z && (returncode c2 =? 0)%Z
             && str_contains "ACTIVE" (stdout c3)
             && (returncode c4 =? 0)%Z
             && str_contains (engine_id self) (stdout c5)) /\
    (valid = true <-> errors = []) /\
    (length errors <= 5)%nat.
Proof.
  intros H.
  destruct (validate_Ok self st valid errors st1 H)
    as (c1 & w1 & c2 & w2 & c3 & w3 & c4 & w4 & c5
        & H1 & H2 & H3 & H4 & H5 & Hm & _ & _ & Hv & Hiff & Hlen).
  exists c1, w1, c2, w2, c3, w3, c4, w4, c5. repeat split; try assumption;
    apply Hiff.
Qed.


Lemma parse_env_vars_raises vars acc e :
  parse_env_vars vars acc = Raise e -> e = SystemExit 1.
Proof.
  revert acc. induction vars as [|var vars IH]; intros acc; cbn [parse_env_vars].
  - discriminate.
  - destruct (str_contains "=" var) eqn:Hc; cbn [negb]; [|congruence].
    destruct (partition_eq_Some var Hc) as (key & value & Hp & _ & _).
    unfold split_eq_1. rewrite Hp. apply IH.
Qed.

Lemma comprehension_raises vars d e :
  fold_left comprehension_step vars (Ok d) = Raise e -> is_Exception e = true.
Proof.
  revert d. induction vars as [|var vars IH]; intros d; cbn [fold_left].
  - discriminate.
  - destruct (comprehension_step (Ok d) var) as [d1|e1] eqn:E.
    + apply IH.
    + rewrite comprehension_raise. intros [= <-].
      unfold comprehension_step in E. cbn [rbind] in E.
      destruct var as [| | | | |fields]; try (cbn in E; now injection E as <-).
      cbn [py_getitem] in E.
      destruct (obj_lookup "name" fields) as [n|]; cbn [rbind] in E;
        [|now injection E as <-].
      destruct (obj_lookup "value" fields) as [v|]; cbn [rbind] in E;
        [|now injection E as <-].
      destruct n; cbn in E; try discriminate; now injection E as <-.
Qed.

Lemma merge_raises cfg N e :
  _merge_env_vars cfg N = Raise e -> is_Exception e = true.
Proof.
  unfold _merge_env_vars, current_env_of.
  destruct cfg as [| | | | |top]; try (cbn; now intros [= <-]).
  cbn [py_get rbind].
  destruct (match obj_lookup "spec" top with Some v => v | None => JObj [] end)
    as [| | | | |spec]; try (cbn; now intros [= <-]).
  cbn [py_get rbind].
  destruct (match obj_lookup "deploymentSpec" spec with
            | Some v => v | None => JObj [] end)
    as [| | | | |dep]; try (cbn; now intros [= <-]).
  cbn [py_get rbind].
  destruct (py_iter _) as [vars|e1] eqn:Hiter; cbn [rbind].
  - destruct (dict_comprehension vars) as [d|e2] eqn:Hd; cbn [rbind];
      [discriminate|].
    intros [= <-]. exact (comprehension_raises vars [] e2 Hd).
  - intros [= <-].
    destruct (match obj_lookup "env" dep with Some v => v | None => JArr [] end);
      cbn in Hiter; try discriminate; now injection Hiter as <-.
Qed.

Lemma token_raises force st e st1 :
  _get_access_token subprocess_run time_time force st = (Raise e, st1) ->
  is_Exception e = true.
Proof.
  intros Hcall.
  destruct (token_anatomy _ subprocess_run time_time force st)
    as (t & w & _ & H).
  destruct (negb force && truthy (_access_token st)
            && (t - _token_refreshed_at st <? 3000)%Z).
  - rewrite H in Hcall. discriminate.
  - destruct H as (outcome & w1 & _ & H). rewrite H in Hcall.
    destruct outcome as [cp|];
      [destruct (returncode cp =? 0)%Z; [discriminate|]|];
      now injection Hcall as <- _.
Qed.

Lemma update_raises self new_vars st e st1 :
  update_env_vars subprocess_run time_time mkstemp json_loads self new_vars st
  = (Raise e, st1) ->
  is_Exception e = true.
Proof.
  intros Hup.
  destruct (get_current_config subprocess_run time_time json_loads self st)
    as [[current|e0] st0] eqn:Hget.
  2:{ unfold update_env_vars in Hup.
      rewrite (bind_raise _ _ _ _ _ _ Hget) in Hup. injection Hup as <- _.
      destruct (_get_access_token subprocess_run time_time false st)
        as [[token|e1] st'] eqn:Htok.
      - destruct (fetch_after_token _ subprocess_run time_time json_loads self
                    st token st' Htok) as (w & outcome & _ & H).
        cbv zeta in H. rewrite H in Hget.
        destruct outcome as [cp|];
          [destruct (returncode cp =? 0)%Z;
           [destruct (json_loads (stdout cp)); [discriminate|]|]|];
          now injection Hget as <- _.
      - unfold get_current_config in Hget.
        rewrite (bind_raise _ _ _ _ _ _ Htok) in Hget. injection Hget as <- _.
        exact (token_raises _ _ _ _ Htok). }
  destruct (_merge_env_vars current new_vars) as [merged|e1] eqn:Hmerge.
  2:{ unfold update_env_vars in Hup.
      rewrite (bind_ok _ _ _ _ _ _ Hget) in Hup.
      unfold bind at 1 in Hup. unfold lift in Hup. rewrite Hmerge in Hup.
      injection Hup as <- _. exact (merge_raises _ _ _ Hmerge). }
  destruct (_get_access_token subprocess_run time_time false st0)
    as [[token2|e2] st2] eqn:Htok.
  2:{ unfold update_env_vars in Hup.
      rewrite (bind_ok _ _ _ _ _ _ Hget) in Hup.
      unfold bind at 1 in Hup. unfold lift in Hup. rewrite Hmerge in Hup.
      rewrite (bind_raise _ _ _ _ _ _ Htok) in Hup. injection Hup as <- _.
      exact (token_raises _ _ _ _ Htok). }
  destruct (update_after_token _ subprocess_run time_time mkstemp json_loads
              self new_vars st current st0 merged token2 st2 Hget Hmerge Htok)
    as (path & w2 & outcome & w3 & _ & _ & H).
  cbv zeta in H. rewrite H in Hup.
  destruct outcome as [cp|];
    [destruct (returncode cp =? 0)%Z;
     [destruct (json_loads (stdout cp)); [discriminate|]|]|];
    now injection Hup as <- _.
Qed.

Lemma run_main_status args w code evs :
  run_main subprocess_run time_time mkstemp json_loads args w = (code, evs) ->
  (code = 0%Z \/ code = 1%Z) /\
  (code = 0%Z -> exists ev, In ev evs /\ is_patch ev = true).
Proof.
  unfold run_main, main. unfold bind at 1. unfold lift.
  destruct (parse_env_vars (arg_env_vars args) []) as [env_vars|e] eqn:Hp.
  2:{ apply parse_env_vars_raises in Hp. subst e. cbn. intros [= <- <-].
      split; [now right | discriminate]. }
  cbv zeta.
  destruct (validate_prerequisites subprocess_run
              (mkConfigurator (arg_project_id args) (arg_location args)
                              (arg_engine_id args) (arg_verbose args))
              (initial w)) as [[[valid errors]|e] st1] eqn:Hv.
  2:{ rewrite (bind_raise _ _ _ _ _ _ Hv).
      apply validate_Raise in Hv as [-> _]. cbn. intros [= <- <-].
      split; [now right | discriminate]. }
  rewrite (bind_ok _ _ _ _ _ _ Hv).
  destruct valid; cbn [negb].
  2:{ cbn. intros [= <- <-]. split; [now right | discriminate]. }
  unfold try_except.
  destruct (update_env_vars subprocess_run time_time mkstemp json_loads
              (mkConfigurator (arg_project_id args) (arg_location args)
                              (arg_engine_id args) (arg_verbose args))
              env_vars st1) as [[doc|e] st2] eqn:Hu.
  - rewrite (bind_ok _ _ _ _ _ _ Hu). cbn. intros [= <- <-].
    split; [now left|]. intros _.
    destruct (update_shape_holds _ _ _ _ _ _ _ _ _ _ Hu) as (evs & Hm & Hs).
    cbn [is_ok] in Hs.
    destruct Hs as (T1 & _ & [[Hf _] | (t1 & [[Hf _] | (T2 & _ & [[Hf _] |
      (t2 & path & body & [[Hf _] | [_ ->]])])])]); try discriminate.
    eexists. split.
    + rewrite Hm. apply in_or_app. right. apply in_or_app. right.
      apply in_or_app. right. apply in_or_app. right. right. now left.
    + reflexivity.
  - rewrite (bind_raise _ _ _ _ _ _ Hu).
    cbn [dispatch]. rewrite (update_raises _ _ _ _ _ Hu). cbn.
    intros [= <- <-]. split; [now right | discriminate].
Qed.

(** X19: from the point where the arguments are parsed, the script ends
    with status 0 or 1, whatever the parsed arguments hold and whatever the
    world answers; it ends with 0 only after a PATCH was started. *)
Theorem script_exit_status args w :
  (fst (run_main subprocess_run time_time mkstemp json_loads args w) = 0%Z \/
   fst (run_main subprocess_run time_time mkstemp json_loads args w) = 1%Z) /\
  (fst (run_main subprocess_run time_time mkstemp json_loads args w) = 0%Z ->
   exists ev,
     In ev (snd (run_main subprocess_run time_time mkstemp json_loads args w))
     /\ is_patch ev = true).
Proof.
  destruct (run_main subprocess_run time_time mkstemp json_loads args w)
    as [code evs] eqn:H.
  cbn [fst snd]. exact (run_main_status args w code evs H).
Qed.

(** X20: when a prerequisite check fails the script exits with status 1
    after the five commands of the check: it starts no [curl], neither the
    GET nor the PATCH, and writes no file. *)
Theorem failed_prerequisites_stop_the_script args w env_vars errors st1 :
  parse_env_vars (arg_env_vars args) [] = Ok env_vars ->
  validate_prerequisites subprocess_run
    (mkConfigurator (arg_project_id args) (arg_location args)
                    (arg_engine_id args) (arg_verbose args))
    (initial w) = (Ok (false, errors), st1) ->
  run_main subprocess_run time_time mkstemp json_loads args w
  = (1%Z,
     prerequisite_commands
       (mkConfigurator (arg_project_id args) (arg_location args)
                       (arg_engine_id args) (arg_verbose args))).
Proof.
  intros Hp Hv. unfold run_main, main. unfold bind at 1. unfold lift.
  rewrite Hp. cbv zeta. rewrite (bind_ok _ _ _ _ _ _ Hv). cbn [negb].
  destruct (validate_Ok _ _ _ _ _ Hv)
    as (c1 & w1 & c2 & w2 & c3 & w3 & c4 & w4 & c5
        & _ & _ & _ & _ & _ & Hm & _).
  unfold sys_exit, raise. cbn [exit_status]. f_equal.
  unfold made in Hm. cbn [initial trace app] in Hm. exact Hm.
Qed.

(** X21: once the arguments are parsed and the prerequisite check has
    passed, the exit status is 0 when the update returns and 1 when it
    raises, whatever the exception; the requests of the script are those of
    the check followed by those of the update. *)
Theorem script_status_follows_update args w env_vars errors st1 :
  parse_env_vars (arg_env_vars args) [] = Ok env_vars ->
  validate_prerequisites subprocess_run
    (mkConfigurator (arg_project_id args) (arg_location args)
                    (arg_engine_id args) (arg_verbose args))
    (initial w) = (Ok (true, errors), st1) ->
  run_main subprocess_run time_time mkstemp json_loads args w
  = ((if is_ok (fst (update_env_vars subprocess_run time_time mkstemp json_loads
                       (mkConfigurator (arg_project_id args) (arg_location args)
                                       (arg_engine_id args) (arg_verbose args))
                       env_vars st1))
      then 0 else 1)%Z,
     trace (snd (update_env_vars subprocess_run time_time mkstemp json_loads
                   (mkConfigurator (arg_project_id args) (arg_location args)
                                   (arg_engine_id args) (arg_verbose args))
                   env_vars st1))).
Proof.
  intros Hp Hv. unfold run_main, main. unfold bind at 1. unfold lift.
  rewrite Hp. cbv zeta. rewrite (bind_ok _ _ _ _ _ _ Hv). cbn [negb].
  unfold try_except.
  destruct (update_env_vars subprocess_run time_time mkstemp json_loads
              (mkConfigurator (arg_project_id args) (arg_location args)
                              (arg_engine_id args) (arg_verbose args))
              env_vars st1) as [[doc|e] st2] eqn:Hu.
  - rewrite (bind_ok _ _ _ _ _ _ Hu). reflexivity.
  - rewrite (bind_raise _ _ _ _ _ _ Hu).
    cbn [dispatch]. rewrite (update_raises _ _ _ _ _ Hu). reflexivity.
Qed.
End MainProperties.


(** * The further properties at work *)

Lemma merge_succeeds_iff_witness :
  exists out, _merge_env_vars (config_with_env log_info) trace_enabled = Ok out.
Proof.
  apply (proj2 (merge_succeeds_iff (config_with_env log_info) trace_enabled)).
  exists (JArr (map env_json log_info)), (map env_json log_info).
  repeat split.
Defined.

Lemma parse_env_vars_round_trip_witness :
  parse_env_vars ["LOG_LEVEL=debug"; "TRACE_ENABLED=true"] []
  = Ok log_debug_and_trace.
Proof.
  apply (proj2 (parse_env_vars_round_trip
                  ["LOG_LEVEL=debug"; "TRACE_ENABLED=true"]
                  log_debug_and_trace)).
  split; [reflexivity|].
  intros e [<- | [<- | []]]; reflexivity.
Defined.

Lemma quote_plus_output_witness :
  quote_plus "spec.deploymentSpec.env" = "spec.deploymentSpec.env".
Proof.
  apply (proj1 (quote_plus_output "spec.deploymentSpec.env")). reflexivity.
Defined.

Lemma token_reused_within_3000s_witness :
  _get_access_token scripted_run fixed_time false
    (snd (_get_access_token scripted_run fixed_time false
            (initial [token_reply])))
  = (Ok "ya29.token",
     mkState []
       (trace (snd (_get_access_token scripted_run fixed_time false
                      (initial [token_reply]))))
       (Some "ya29.token")
       (_token_refreshed_at
          (snd (_get_access_token scripted_run fixed_time false
                  (initial [token_reply]))))).
Proof.
  apply (token_reused_within_3000s _ scripted_run fixed_time false
           (initial [token_reply]) "ya29.token"
           (snd (_get_access_token scripted_run fixed_time false
                   (initial [token_reply])))
           1700000000%Z []).
  - vm_compute. reflexivity.
  - discriminate.
  - reflexivity.
  - vm_compute. reflexivity.
Defined.


Lemma update_requests_in_order_witness :
  exists evs,
    made (initial healthy_world)
         (snd (update_env_vars scripted_run fixed_time fixed_temp example_loads
                 example_engine trace_enabled (initial healthy_world)))
         evs /\
    update_shape example_engine evs true.
Proof.
  apply (update_requests_in_order _ scripted_run fixed_time fixed_temp
           example_loads example_engine trace_enabled (initial healthy_world)
           (Ok (config_with_env [mkEnvVar "LOG_LEVEL" "debug"]))).
  vm_compute. reflexivity.
Defined.

Lemma body_file_removed_iff_success_witness :
  exists evs,
    made (initial (firstn 2 denied_world))
         (snd (update_env_vars scripted_run fixed_time fixed_temp example_loads
                 example_engine trace_enabled
                 (initial (firstn 2 denied_world))))
         evs /\
    existsb is_unlink evs = false /\
    forall path, In (Unlink path) evs ->
                 exists body, In (TempWrite path body) evs.
Proof.
  apply (body_file_removed_iff_success _ scripted_run fixed_time fixed_temp
           example_loads example_engine trace_enabled
           (initial (firstn 2 denied_world))
           (Raise FileNotFoundError)).
  vm_compute. reflexivity.
Defined.

Lemma update_is_not_retried_witness :
  exists evs,
    made (initial unreachable_world)
         (snd (update_env_vars scripted_run fixed_time fixed_temp example_loads
                 example_engine trace_enabled (initial unreachable_world)))
         evs /\
    (length (filter is_curl evs) <= 2)%nat /\
    (length (filter is_patch evs) <= 1)%nat /\
    (length evs <= 6)%nat /\
    (false = true -> length (filter is_patch evs) = 1%nat).
Proof.
  apply (update_is_not_retried _ scripted_run fixed_time fixed_temp
           example_loads example_engine trace_enabled
           (initial unreachable_world)
           (Raise (CalledProcessError 7 EmptyString))).
  vm_compute. reflexivity.
Defined.

Lemma empty_update_writes_list_back_witness :
  exists path,
    In (TempWrite path
          (JObj [("spec",
                  JObj [("deploymentSpec",
                         JObj [("env", JArr (map env_json log_info))])])]))
       (trace (snd (update_env_vars scripted_run fixed_time fixed_temp
                      example_loads example_engine []
                      (initial healthy_world)))) /\
    In (Exec (patch_argv "ya29.token" path
                (_build_url example_engine (Some [("updateMask", ENV_PATH)]))))
       (trace (snd (update_env_vars scripted_run fixed_time fixed_temp
                      example_loads example_engine []
                      (initial healthy_world)))).
Proof.
  apply (empty_update_writes_list_back _ scripted_run fixed_time fixed_temp
           example_loads example_engine (initial healthy_world)
           (config_with_env log_info)
           (snd (get_current_config scripted_run fixed_time example_loads
                   example_engine (initial healthy_world)))
           log_info "ya29.token"
           (snd (_get_access_token scripted_run fixed_time false
                   (snd (get_current_config scripted_run fixed_time
                           example_loads example_engine
                           (initial healthy_world)))))).
  - vm_compute. reflexivity.
  - reflexivity.
  - cbn. repeat constructor. cbn. tauto.
  - vm_compute. reflexivity.
Defined.

Lemma fetch_outcomes_witness :
  fst (get_current_config scripted_run fixed_time example_loads example_engine
         (initial [token_reply; Tool (Completed (mkCompleted 0 "<html>" EmptyString))]))
  = Raise JSONDecodeError.
Proof.
  rewrite (fetch_outcomes _ scripted_run fixed_time example_loads example_engine
             (initial [token_reply;
                       Tool (Completed (mkCompleted 0 "<html>" EmptyString))])
             "ya29.token"
             (snd (_get_access_token scripted_run fixed_time false
                     (initial [token_reply;
                               Tool (Completed (mkCompleted 0 "<html>" EmptyString))])))
             (Completed (mkCompleted 0 "<html>" EmptyString)) []).
  - reflexivity.
  - vm_compute. reflexivity.
  - vm_compute. reflexivity.
Defined.

Lemma patch_outcomes_witness :
  fst (update_env_vars scripted_run fixed_time fixed_temp example_loads
         example_engine trace_enabled
         (initial [token_reply; Wire (Curl.Response 200 body_info);
                   Wire (Curl.NoResponse 28)]))
  = Raise (CalledProcessError 28 EmptyString).
Proof.
  rewrite (patch_outcomes _ scripted_run fixed_time fixed_temp example_loads
             example_engine trace_enabled
             (initial [token_reply; Wire (Curl.Response 200 body_info);
                       Wire (Curl.NoResponse 28)])
             (config_with_env log_info)
             (snd (get_current_config scripted_run fixed_time example_loads
                     example_engine
                     (initial [token_reply; Wire (Curl.Response 200 body_info);
                               Wire (Curl.NoResponse 28)])))
             (map env_json [mkEnvVar "LOG_LEVEL" "info";
                            mkEnvVar "TRACE_ENABLED" "true"])
             "ya29.token"
             (snd (_get_access_token scripted_run fixed_time false
                     (snd (get_current_config scripted_run fixed_time
                             example_loads example_engine
                             (initial [token_reply;
                                       Wire (Curl.Response 200 body_info);
                                       Wire (Curl.NoResponse 28)])))))
             "/tmp/tmpk3v9.json" [Wire (Curl.NoResponse 28)]
             (Completed (mkCompleted 28 EmptyString EmptyString)) []).
  - reflexivity.
  - vm_compute. reflexivity.
  - reflexivity.
  - vm_compute. reflexivity.
  - reflexivity.
  - vm_compute. reflexivity.
Defined.

Lemma prerequisites_verdict_witness :
  exists c1 w1 c2 w2 c3 w3 c4 w4 c5,
    scripted_run ["which"; "gcloud"] failing_checks = (Completed c1, w1) /\
    scripted_run ["which"; "curl"] w1 = (Completed c2, w2) /\
    scripted_run ["gcloud"; "auth"; "list"] w2 = (Completed c3, w3) /\
    scripted_run ["gcloud"; "projects"; "describe"; "acme-prod"] w3
    = (Completed c4, w4) /\
    scripted_run
      ["gcloud"; "ai"; "reasoning-engines"; "list";
       "--project=acme-prod"; "--location=us-central1"; "--format=value(id)"]
      w4
    = (Completed c5, []) /\
    made (initial failing_checks)
         (snd (validate_prerequisites scripted_run example_engine
                 (initial failing_checks)))
         (prerequisite_commands example_engine) /\
    false = ((returncode c1 =? 0)%Z && (returncode c2 =? 0)%Z
             && str_contains "ACTIVE" (stdout c3)
             && (returncode c4 =? 0)%Z
             && str_contains "4242" (stdout c5)) /\
    (false = true <->
     ["Reasoning Engine 4242 not found in us-central1. Available: 1717"] = []) /\
    (1 <= 5)%nat.
Proof.
  apply (prerequisites_verdict _ scripted_run example_engine
           (initial failing_checks) false
           ["Reasoning Engine 4242 not found in us-central1. Available: 1717"]
           (snd (validate_prerequisites scripted_run example_engine
                   (initial failing_checks)))).
  vm_compute. reflexivity.
Defined.


Lemma failed_prerequisites_stop_the_script_witness :
  run_main scripted_run fixed_time fixed_temp example_loads example_args
           (failing_checks ++ healthy_world)%list
  = (1%Z, prerequisite_commands example_engine).
Proof.
  apply (failed_prerequisites_stop_the_script _ scripted_run fixed_time
           fixed_temp example_loads example_args
           (failing_checks ++ healthy_world)%list
           [mkEnvVar "LOG_LEVEL" "debug"]
           ["Reasoning Engine 4242 not found in us-central1. Available: 1717"]
           (snd (validate_prerequisites scripted_run example_engine
                   (initial (failing_checks ++ healthy_world)%list)))).
  - reflexivity.
  - vm_compute. reflexivity.
Defined.

Lemma script_status_follows_update_witness :
  fst (run_main scripted_run fixed_time fixed_temp example_loads example_args
         (passing_checks ++ healthy_world)%list)
  = 0%Z.
Proof.
  rewrite (script_status_follows_update _ scripted_run fixed_time fixed_temp
             example_loads example_args
             (passing_checks ++ healthy_world)%list
             [mkEnvVar "LOG_LEVEL" "debug"] []
             (snd (validate_prerequisites scripted_run example_engine
                     (initial (passing_checks ++ healthy_world)%list)))).
  - vm_compute. reflexivity.
  - reflexivity.
  - vm_compute. reflexivity.
Defined.


(** C1, at the failing input.  The GET is answered by HTTP 503 with an
    error body: the fetch has failed, yet it does not raise, and the update
    goes on to write a body that holds the new variable alone and to start
    the PATCH with it. *)
Theorem patch_issued_after_failed_get :
  Curl.http_failure (Curl.Response 503 body_unavailable) = true /\
  trace (snd (update_env_vars scripted_run fixed_time fixed_temp example_loads
                example_engine trace_enabled (initial unavailable_world)))
  = [Exec gcloud_token_argv;
     Exec (get_argv "ya29.token" (_build_url example_engine None));
     TempWrite "/tmp/tmpk3v9.json"
       (JObj [("spec",
               JObj [("deploymentSpec",
                      JObj [("env", JArr (map env_json trace_enabled))])])]);
     Exec (patch_argv "ya29.token" "/tmp/tmpk3v9.json"
             (_build_url example_engine (Some [("updateMask", ENV_PATH)])));
     Unlink "/tmp/tmpk3v9.json"] /\
  is_patch (Exec (patch_argv "ya29.token" "/tmp/tmpk3v9.json"
                    (_build_url example_engine
                       (Some [("updateMask", ENV_PATH)])))) = true.
Proof. repeat split; vm_compute; reflexivity. Qed.
